(** * The Sanctuary of Nature API: a shallow embedding of [main.py] and
      [schemas.py], and the properties of its handlers.

    Python values are embedded as follows: [str] is a [string] of UTF-8
    bytes, [int] is [Z], [float] is [spec_float] (IEEE 754 binary64 without
    NaN payloads), [Optional[T]] is [option T], [List[str]] is [list string],
    a [dict] keyed by strings is a [gmap string _].  Handlers that call the
    storage helpers are programs in a small monad [prog] whose two effects are
    the calls [create_document] and [get_documents] of [database.py]. *)

From Stdlib Require Import ZArith String Ascii.
From Stdlib Require Import Floats.SpecFloat.
From stdpp Require Import base option list strings gmap fin_maps infinite.

Local Open Scope string_scope.
Local Open Scope Z_scope.

(** ** Python values *)

Module Py.

(** The values that occur as fields of the documents of this application. *)
Inductive value : Type :=
| VNone
| VStr (s : string)
| VInt (n : Z)
| VFloat (x : spec_float)
| VList (l : list string).

(** A document (and every dumped model) is a [dict] from field names to
    values. *)
Abbreviation document := (gmap string value).

(** Truthiness, as used by [if x:] on an [Optional[str]] and on an
    [Optional[int]]: [None], the empty string and [0] are false. *)
Definition truthy_str (o : option string) : bool :=
  match o with
  | None => false
  | Some s => negb (String.eqb s "")
  end.

Definition truthy_int (o : option Z) : bool :=
  match o with
  | None => false
  | Some n => negb (n =? 0)
  end.

(** [x is not None]. *)
Definition is_not_None {A} (o : option A) : bool :=
  match o with
  | None => false
  | Some _ => true
  end.

(** A byte that continues a UTF-8 sequence ([10xxxxxx]); every other byte
    starts a code point. *)
Definition is_continuation (c : ascii) : bool :=
  let n := N_of_ascii c in ((128 <=? n) && (n <? 192))%N.

(** [s[:n]]: the first [n] code points of a [str] held as UTF-8 bytes. *)
Fixpoint slice_to (n : nat) (s : string) : string :=
  match s with
  | EmptyString => EmptyString
  | String c s' =>
      if is_continuation c then String c (slice_to n s')
      else match n with
           | O => EmptyString
           | S n' => String c (slice_to n' s')
           end
  end.

(** Exceptions: a plain [Exception] carrying its message, and FastAPI's
    [HTTPException]. *)
Inductive Exception : Type :=
| PyException (msg : string)
| HTTPException (status_code : Z) (detail : string).

(** Decimal rendering of a status code ([str] of an [int]). *)
Definition digit (n : Z) : ascii := ascii_of_N (48 + Z.to_N n).

Fixpoint digits (fuel : nat) (n : Z) (acc : string) : string :=
  match fuel with
  | O => acc
  | S fuel' =>
      let acc' := String (digit (n mod 10)) acc in
      if n / 10 =? 0 then acc' else digits fuel' (n / 10) acc'
  end.

Definition str_int (n : Z) : string :=
  if n <? 0 then String "-" (digits (Z.to_nat (- n)) (- n) "")
  else digits (S (Z.to_nat n)) n "".

(** [str(e)]. An [HTTPException] prints as its status code, a colon and its
    detail. *)
Definition str (e : Exception) : string :=
  match e with
  | PyException msg => msg
  | HTTPException status_code detail => str_int status_code ++ ": " ++ detail
  end.

End Py.
Import Py.

(** ** Filters and the storage effects *)

(** A filter maps a field name to a constraint: the dict entry
    [q[field] = v] is an exact match, [q[field] = {"$lte": v}] an at-most
    comparison. *)
Inductive constraint : Type :=
| Exact (v : value)
| AtMost (v : value).

Abbreviation filter := (gmap string constraint).

(** A handler is a program that returns, raises, or calls one of the two
    helpers imported from [database.py] and continues with what the helper
    returned or raised. *)
Inductive prog (A : Type) : Type :=
| Return (a : A)
| Raise (e : Exception)
| CreateDocument (collection_name : string) (data : document)
    (k : Exception + string -> prog A)
| GetDocuments (collection_name : string) (filter_dict : filter)
    (limit : option nat) (k : Exception + list document -> prog A).

Arguments Return {A} a.
Arguments Raise {A} e.
Arguments CreateDocument {A} collection_name data k.
Arguments GetDocuments {A} collection_name filter_dict limit k.

Definition resume {A} (r : Exception + A) : prog A :=
  match r with
  | inl e => Raise e
  | inr a => Return a
  end.

Definition create_document (collection_name : string) (data : document)
  : prog string :=
  CreateDocument collection_name data resume.

Definition get_documents (collection_name : string) (filter_dict : filter)
    (limit : option nat) : prog (list document) :=
  GetDocuments collection_name filter_dict limit resume.

Fixpoint prog_bind {A B} (f : A -> prog B) (m : prog A) : prog B :=
  match m with
  | Return a => f a
  | Raise e => Raise e
  | CreateDocument c d k => CreateDocument c d (fun r => prog_bind f (k r))
  | GetDocuments c q l k => GetDocuments c q l (fun r => prog_bind f (k r))
  end.

#[global] Instance prog_mret : MRet prog := @Return.
#[global] Instance prog_mbind : MBind prog := @prog_bind.

(** [try: body except Exception as e: handler e]. *)
Fixpoint try_except {A} (body : prog A) (handler : Exception -> prog A)
  : prog A :=
  match body with
  | Return a => Return a
  | Raise e => handler e
  | CreateDocument c d k =>
      CreateDocument c d (fun r => try_except (k r) handler)
  | GetDocuments c q l k =>
      GetDocuments c q l (fun r => try_except (k r) handler)
  end.

(** The clause every handler of [main.py] ends with:
    [except Exception as e: raise HTTPException(status_code=500, detail=str(e))]. *)
Definition server_error {A} (e : Exception) : prog A :=
  Raise (HTTPException 500 (str e)).

(** *** Running a program against a storage adapter *)

(** A storage adapter answers the two calls over some state. *)
Record adapter (S : Type) : Type := Adapter {
  on_create : string -> document -> S -> (Exception + string) * S;
  on_find : string -> filter -> option nat -> S
            -> (Exception + list document) * S
}.

Arguments Adapter {S} on_create on_find.
Arguments on_create {S} a _ _ _.
Arguments on_find {S} a _ _ _ _.

(** The calls a program made, in order. *)
Inductive call : Type :=
| CallCreate (collection_name : string) (data : document)
| CallFind (collection_name : string) (filter_dict : filter)
    (limit : option nat).

Record outcome (S A : Type) : Type := Outcome {
  result : Exception + A;
  final : S;
  calls : list call
}.

Arguments Outcome {S A} result final calls.
Arguments result {S A} o.
Arguments final {S A} o.
Arguments calls {S A} o.

Definition logged {S A} (c : call) (o : outcome S A) : outcome S A :=
  Outcome (result o) (final o) (c :: calls o).

Fixpoint run {S A} (ad : adapter S) (p : prog A) (s : S) : outcome S A :=
  match p with
  | Return a => Outcome (inr a) s []
  | Raise e => Outcome (inl e) s []
  | CreateDocument c d k =>
      let '(r, s') := on_create ad c d s in
      logged (CallCreate c d) (run ad (k r) s')
  | GetDocuments c q l k =>
      let '(r, s') := on_find ad c q l s in
      logged (CallFind c q l) (run ad (k r) s')
  end.

(** ** [schemas.py]: the entity models *)

(** A field error reported by schema validation: the field and the violated
    constraint. *)
Inductive bound : Type :=
| greater_than_equal (limit : Z)
| less_than_equal (limit : Z).

Record field_error : Type := FieldError {
  loc : string;
  violated : bound
}.

(** What the handlers use of a [BaseModel]: its dump to a dict, and the
    errors of its declared [Field] constraints. *)
Class BaseModel (T : Type) : Type := {
  model_dump : T -> document;
  field_errors : T -> list field_error
}.

Definition dump_opt_str (o : option string) : value :=
  match o with
  | None => VNone
  | Some s => VStr s
  end.

Definition dump_opt_int (o : option Z) : value :=
  match o with
  | None => VNone
  | Some n => VInt n
  end.

Definition dump_opt_float (o : option spec_float) : value :=
  match o with
  | None => VNone
  | Some x => VFloat x
  end.

Module Host.
Record Host : Type := {
  name : string;
  bio : option string;
  specialties : list string;
  website : option string;
  location : option string
}.
End Host.
Abbreviation Host := Host.Host.

#[global] Instance Host_model : BaseModel Host := {
  model_dump h :=
    <["name" := VStr (Host.name h)]>
    (<["bio" := dump_opt_str (Host.bio h)]>
    (<["specialties" := VList (Host.specialties h)]>
    (<["website" := dump_opt_str (Host.website h)]>
    (<["location" := dump_opt_str (Host.location h)]> ∅))));
  field_errors _ := []
}.

Module Location.
Record Location : Type := {
  title : string;
  region : string;
  nature_type : string;
  description : option string;
  image_url : option string
}.
End Location.
Abbreviation Location := Location.Location.

#[global] Instance Location_model : BaseModel Location := {
  model_dump l :=
    <["title" := VStr (Location.title l)]>
    (<["region" := VStr (Location.region l)]>
    (<["nature_type" := VStr (Location.nature_type l)]>
    (<["description" := dump_opt_str (Location.description l)]>
    (<["image_url" := dump_opt_str (Location.image_url l)]> ∅))));
  field_errors _ := []
}.

Module Retreat.
Record Retreat : Type := {
  title : string;
  description : option string;
  host_name : string;
  location_title : string;
  nature_type : string;
  focus : list string;
  duration_days : Z;
  price_usd : spec_float;
  start_date : option string;
  image_url : option string
}.
End Retreat.
Abbreviation Retreat := Retreat.Retreat.

(** [x >= 0] on floats; it is false on NaN. *)
Definition float_ge_0 (x : spec_float) : bool := SFleb (S754_zero false) x.

(** [x < 0] on floats. *)
Definition float_lt_0 (x : spec_float) : bool := SFltb x (S754_zero false).

(** [duration_days: int = Field(..., ge=1, le=60)] and
    [price_usd: float = Field(..., ge=0)]. *)
Definition Retreat_field_errors (r : Retreat) : list field_error :=
  (if 1 <=? Retreat.duration_days r then []
   else [FieldError "duration_days" (greater_than_equal 1)])
  ++ (if Retreat.duration_days r <=? 60 then []
      else [FieldError "duration_days" (less_than_equal 60)])
  ++ (if float_ge_0 (Retreat.price_usd r) then []
      else [FieldError "price_usd" (greater_than_equal 0)]).

#[global] Instance Retreat_model : BaseModel Retreat := {
  model_dump r :=
    <["title" := VStr (Retreat.title r)]>
    (<["description" := dump_opt_str (Retreat.description r)]>
    (<["host_name" := VStr (Retreat.host_name r)]>
    (<["location_title" := VStr (Retreat.location_title r)]>
    (<["nature_type" := VStr (Retreat.nature_type r)]>
    (<["focus" := VList (Retreat.focus r)]>
    (<["duration_days" := VInt (Retreat.duration_days r)]>
    (<["price_usd" := VFloat (Retreat.price_usd r)]>
    (<["start_date" := dump_opt_str (Retreat.start_date r)]>
    (<["image_url" := dump_opt_str (Retreat.image_url r)]> ∅)))))))));
  field_errors := Retreat_field_errors
}.

Module Message.
Record Message : Type := {
  author : string;
  content : string;
  topic : option string
}.
End Message.
Abbreviation Message := Message.Message.

#[global] Instance Message_model : BaseModel Message := {
  model_dump m :=
    <["author" := VStr (Message.author m)]>
    (<["content" := VStr (Message.content m)]>
    (<["topic" := dump_opt_str (Message.topic m)]> ∅));
  field_errors _ := []
}.

Module Preference.
Record Preference : Type := {
  energy : option string;
  preferred_nature : option string;
  budget : option spec_float;
  duration : option Z;
  goals : option string
}.
End Preference.
Abbreviation Preference := Preference.Preference.

#[global] Instance Preference_model : BaseModel Preference := {
  model_dump p :=
    <["energy" := dump_opt_str (Preference.energy p)]>
    (<["preferred_nature" := dump_opt_str (Preference.preferred_nature p)]>
    (<["budget" := dump_opt_float (Preference.budget p)]>
    (<["duration" := dump_opt_int (Preference.duration p)]>
    (<["goals" := dump_opt_str (Preference.goals p)]> ∅))));
  field_errors _ := []
}.

(** The outcome of an endpoint whose body is a model: the request is
    rejected by schema validation, before the handler is entered, or the
    handler runs on the validated model. *)
Inductive reply (A : Type) : Type :=
| Rejected (errors : list field_error)
| Handled (p : prog A).

Arguments Rejected {A} errors.
Arguments Handled {A} p.

Definition endpoint {T A} `{BaseModel T} (handler : T -> prog A) (body : T)
  : reply A :=
  match field_errors body with
  | [] => Handled (handler body)
  | errors => Rejected errors
  end.

(** ** [main.py]: the create and list handlers *)

(** [{"id": _id, "status": "created"}]. *)
Definition created (_id : string) : document :=
  <["id" := VStr _id]> (<["status" := VStr "created"]> ∅).

Definition create_host (host : Host) : prog document :=
  try_except
    (_id ← create_document "host" (model_dump host);
     mret (created _id))
    server_error.

Definition list_hosts : prog (list document) :=
  try_except (get_documents "host" ∅ None) server_error.

Definition create_location (location : Location) : prog document :=
  try_except
    (_id ← create_document "location" (model_dump location);
     mret (created _id))
    server_error.

Definition list_locations : prog (list document) :=
  try_except (get_documents "location" ∅ None) server_error.

Definition create_retreat (retreat : Retreat) : prog document :=
  try_except
    (_id ← create_document "retreat" (model_dump retreat);
     mret (created _id))
    server_error.

Definition list_retreats (nature_type : option string)
  : prog (list document) :=
  try_except
    (let filter_q : filter :=
       if truthy_str nature_type
       then {[ "nature_type" := Exact (dump_opt_str nature_type) ]}
       else ∅ in
     get_documents "retreat" filter_q None)
    server_error.

Definition create_message (message : Message) : prog document :=
  try_except
    (_id ← create_document "message" (model_dump message);
     mret (created _id))
    server_error.

Definition list_messages (topic : option string) : prog (list document) :=
  try_except
    (let filter_q : filter :=
       if truthy_str topic
       then {[ "topic" := Exact (dump_opt_str topic) ]}
       else ∅ in
     get_documents "message" filter_q None)
    server_error.

(** ** [main.py]: recommendation and quiz *)

Module QuizInput.
Record QuizInput : Type := {
  energy : option string;
  preferred_nature : option string;
  budget : option spec_float;
  duration : option Z;
  goals : option string
}.
End QuizInput.
Abbreviation QuizInput := QuizInput.QuizInput.

#[global] Instance QuizInput_model : BaseModel QuizInput := {
  model_dump p :=
    <["energy" := dump_opt_str (QuizInput.energy p)]>
    (<["preferred_nature" := dump_opt_str (QuizInput.preferred_nature p)]>
    (<["budget" := dump_opt_float (QuizInput.budget p)]>
    (<["duration" := dump_opt_int (QuizInput.duration p)]>
    (<["goals" := dump_opt_str (QuizInput.goals p)]> ∅))));
  field_errors _ := []
}.

(** [{"matches": retreats, "spirit_message": spirit_note}]. *)
Record recommendation : Type := Recommendation {
  matches : list document;
  spirit_message : string
}.

(** The dict [q] of [recommend], built by its three guarded assignments. *)
Definition recommend_query (pref : QuizInput) : filter :=
  let q : filter := ∅ in
  let q :=
    if truthy_str (QuizInput.preferred_nature pref)
    then <["nature_type" :=
             Exact (dump_opt_str (QuizInput.preferred_nature pref))]> q
    else q in
  let q :=
    if truthy_int (QuizInput.duration pref)
    then <["duration_days" :=
             AtMost (dump_opt_int (QuizInput.duration pref))]> q
    else q in
  let q :=
    if is_not_None (QuizInput.budget pref)
    then <["price_usd" :=
             AtMost (dump_opt_float (QuizInput.budget pref))]> q
    else q in
  q.

(** [energy == s] for an optional string. *)
Definition energy_is (energy : option string) (s : string) : bool :=
  match energy with
  | None => false
  | Some e => String.eqb e s
  end.

Definition fallback_note : string :=
  "Nature listens. Share more, and I’ll guide you further.".

(** The [if]/[elif] chain that picks the guidance text. *)
Definition spirit_note (energy : option string) : string :=
  if energy_is energy "calm" then
    "The waters are still today; gentle breath and soft horizons call you."
  else if energy_is energy "transformative" then
    "Winds of change swirl around you; trust the metamorphosis."
  else if energy_is energy "adventurous" then
    "Peaks and tides await; your courage is the compass."
  else if energy_is energy "restorative" then
    "Let the earth hold you; sleep, nourish, and renew."
  else fallback_note.

Definition recommend (pref : QuizInput) : prog recommendation :=
  try_except
    (let q := recommend_query pref in
     retreats ← get_documents "retreat" q (Some 8%nat);
     mret (Recommendation retreats (spirit_note (QuizInput.energy pref))))
    server_error.

(** Reading one keyword argument of the [QuizInput] constructor: a missing key
    takes the default [None]; a value of another type than the declared one
    is a validation error, whose message is cut here to its headline and the
    field (the dump of a [Preference] has no such value, see
    [QuizInput_init_model_dump]). *)
Definition validation_error (field : string) : Exception :=
  PyException ("1 validation error for QuizInput" ++ String "010" field).

Definition get_opt_str (kwargs : document) (field : string)
  : Exception + option string :=
  match kwargs !! field with
  | None | Some VNone => inr None
  | Some (VStr s) => inr (Some s)
  | Some _ => inl (validation_error field)
  end.

Definition get_opt_int (kwargs : document) (field : string)
  : Exception + option Z :=
  match kwargs !! field with
  | None | Some VNone => inr None
  | Some (VInt n) => inr (Some n)
  | Some _ => inl (validation_error field)
  end.

Definition get_opt_float (kwargs : document) (field : string)
  : Exception + option spec_float :=
  match kwargs !! field with
  | None | Some VNone => inr None
  | Some (VFloat x) => inr (Some x)
  | Some _ => inl (validation_error field)
  end.

(** The [QuizInput] constructor applied to a dict of keyword arguments. *)
Definition QuizInput_init (kwargs : document) : Exception + QuizInput :=
  match get_opt_str kwargs "energy",
        get_opt_str kwargs "preferred_nature",
        get_opt_float kwargs "budget",
        get_opt_int kwargs "duration",
        get_opt_str kwargs "goals" with
  | inr energy, inr preferred_nature, inr budget, inr duration, inr goals =>
      inr {| QuizInput.energy := energy;
             QuizInput.preferred_nature := preferred_nature;
             QuizInput.budget := budget;
             QuizInput.duration := duration;
             QuizInput.goals := goals |}
  | inl e, _, _, _, _
  | _, inl e, _, _, _
  | _, _, inl e, _, _
  | _, _, _, inl e, _
  | _, _, _, _, inl e => inl e
  end.

Definition quiz (pref : Preference) : prog recommendation :=
  try_except
    (match QuizInput_init (model_dump pref) with
     | inl e => Raise e
     | inr input => recommend input
     end)
    server_error.

(** ** [main.py]: the [/test] diagnostic *)

(** What [hasattr(db, 'name')] and [db.name] find on the handle. *)
Inductive attribute : Type :=
| Missing
| Holds (v : value)
| Fails (e : Exception).

(** The behaviour of a database handle, as far as [test_database] uses it:
    its [name] attribute and what [list_collection_names()] returns or
    raises. *)
Record handle : Type := Handle {
  name : attribute;
  list_collection_names : Exception + list string
}.

(** ["✅ Set" if os.getenv(key) else "❌ Not Set"]. *)
Definition set_or_not (environ : gmap string string) (key : string)
  : value :=
  if truthy_str (environ !! key) then VStr "✅ Set" else VStr "❌ Not Set".

(** The body of the outer [try]: the response as it stands when the block
    is left, normally or through either [except] clause. *)
Definition test_database_try (environ : gmap string string)
    (db : option handle) (response : document) : document :=
  match db with
  | Some h =>
      let response := <["database" := VStr "✅ Available"]> response in
      let response :=
        <["database_url" := set_or_not environ "DATABASE_URL"]> response in
      match
        match name h with
        | Missing => inr (VStr "Unknown")
        | Holds v => inr v
        | Fails e => inl e
        end
      with
      | inl e =>
          <["database" := VStr ("❌ Error: " ++ slice_to 100 (str e))]>
            response
      | inr database_name =>
          let response := <["database_name" := database_name]> response in
          let response :=
            <["connection_status" := VStr "Connected"]> response in
          match list_collection_names h with
          | inr collections =>
              let response :=
                <["collections" := VList (take 10 collections)]> response in
              <["database" := VStr "✅ Connected & Working"]> response
          | inl e =>
              <["database" :=
                  VStr ("⚠️  Connected but Error: "
                        ++ slice_to 80 (str e))]> response
          end
      end
  | None =>
      <["database" := VStr "⚠️  Available but not initialized"]> response
  end.

Definition test_database (environ : gmap string string) (db : option handle)
  : document :=
  let response : document :=
    <["backend" := VStr "✅ Running"]>
    (<["database" := VStr "❌ Not Available"]>
    (<["database_url" := VNone]>
    (<["database_name" := VNone]>
    (<["connection_status" := VStr "Not Connected"]>
    (<["collections" := VList []]> ∅))))) in
  let response := test_database_try environ db response in
  let response :=
    <["database_url" := set_or_not environ "DATABASE_URL"]> response in
  let response :=
    <["database_name" := set_or_not environ "DATABASE_NAME"]> response in
  response.

Definition read_root : document :=
  {[ "message" := VStr "The Sanctuary of Nature Backend is alive" ]}.

(** ** The document store adapter ([database.py]) *)

(** Modelled from the spec: [database.py] is not among the sources, so the
    connection handle and the two helpers follow the specification of the
    document store adapter. The handlers above do not depend on this module:
    they are programs over the two calls, run against any [adapter]. *)

Module Store.

(** Numbers are compared by value across [int] and [float]: a finite number
    is [m * 2^e]. *)
Inductive number : Type :=
| NaN
| Inf (negative : bool)
| Dyadic (m e : Z).

Definition to_number (v : value) : option number :=
  match v with
  | VInt n => Some (Dyadic n 0)
  | VFloat (S754_zero _) => Some (Dyadic 0 0)
  | VFloat (S754_infinity s) => Some (Inf s)
  | VFloat S754_nan => Some NaN
  | VFloat (S754_finite s m e) =>
      Some (Dyadic (if s then Z.neg m else Z.pos m) e)
  | _ => None
  end.

Definition number_compare (a b : number) : option comparison :=
  match a, b with
  | NaN, _ | _, NaN => None
  | Inf s1, Inf s2 =>
      Some (if s1 then (if s2 then Eq else Lt) else (if s2 then Gt else Eq))
  | Inf s, Dyadic _ _ => Some (if s then Lt else Gt)
  | Dyadic _ _, Inf s => Some (if s then Gt else Lt)
  | Dyadic m1 e1, Dyadic m2 e2 =>
      let e := Z.min e1 e2 in
      Some (m1 * 2 ^ (e1 - e) ?= m2 * 2 ^ (e2 - e))
  end.

(** Exact match of a stored value against a filter value. *)
Definition value_eqb (v x : value) : bool :=
  match v, x with
  | VNone, VNone => true
  | VStr s, VStr t => String.eqb s t
  | VList l, VList k => bool_decide (l = k)
  | _, _ =>
      match to_number v, to_number x with
      | Some a, Some b =>
          match number_compare a b with Some Eq => true | _ => false end
      | _, _ => false
      end
  end.

(** At-most comparison of a stored value against a filter value. *)
Definition value_leb (v x : value) : bool :=
  match to_number v, to_number x with
  | Some a, Some b =>
      match number_compare a b with Some (Lt | Eq) => true | _ => false end
  | _, _ => false
  end.

Definition satisfies (doc : document) (field : string) (c : constraint)
  : bool :=
  match doc !! field with
  | None => false
  | Some v =>
      match c with
      | Exact x => value_eqb v x
      | AtMost x => value_leb v x
      end
  end.

(** Modelled from the spec: the filter maps a field name to an exact-match
    value or an at-most comparison, and a document matches when it satisfies
    every constraint of it; a constraint on a field the document lacks
    matches nothing. *)
Definition matches_filter (q : filter) (doc : document) : bool :=
  forallb (fun kc => satisfies doc kc.1 kc.2) (map_to_list q).

(** A database has a name and collections; a collection is a flat set of
    documents keyed by the identifier the store generated for each.
    [string_ids] is the output shape of a find. *)
Record database : Type := Database {
  db_name : string;
  string_ids : bool;
  collections : gmap string (gmap string document)
}.

(** Modelled from the spec: the process-wide state of [database.py]. It
    holds the environment variables, the connection handle [db] ([None]
    without a connection), and the underlying failures still to come, one
    entry per round trip to the store ([Some msg] fails it). *)
Record world : Type := World {
  environ : gmap string string;
  db : option database;
  outages : list (option string)
}.

Definition StorageUnavailable : Exception :=
  PyException "StorageUnavailable".
Definition WriteError (msg : string) : Exception :=
  PyException ("WriteError: " ++ msg).
Definition ReadError (msg : string) : Exception :=
  PyException ("ReadError: " ++ msg).

Definition default_limit : nat := 100.

Definition round_trip (w : world) : option string * world :=
  match outages w with
  | [] => (None, w)
  | o :: rest => (o, World (environ w) (db w) rest)
  end.

Definition collection_of (d : database) (collection_name : string)
  : gmap string document :=
  default ∅ (collections d !! collection_name).

(** Modelled from the spec: [create_document] of [database.py], which is not
    among the sources. It inserts the serialized record into the named
    collection under a newly generated identifier and returns that
    identifier; it fails with [StorageUnavailable] without a live connection
    and with [WriteError] on an underlying failure. *)
Definition db_create_document (collection_name : string) (data : document)
    (w : world) : (Exception + string) * world :=
  match db w with
  | None => (inl StorageUnavailable, w)
  | Some d =>
      match round_trip w with
      | (Some msg, w') => (inl (WriteError msg), w')
      | (None, w') =>
          let c := collection_of d collection_name in
          let _id := fresh (dom c) in
          let d' :=
            Database (db_name d) (string_ids d)
              (<[collection_name := <[_id := data]> c]> (collections d)) in
          (inr _id, World (environ w') (Some d') (outages w'))
      end
  end.

(** The shape of a returned document: the store-internal identifier is
    stripped, or written into a plain string [id] field. *)
Definition shaped (d : database) (entry : string * document) : document :=
  if string_ids d then <["id" := VStr entry.1]> entry.2 else entry.2.

(** Modelled from the spec: [get_documents] of [database.py], which is not
    among the sources. It returns up to [limit] documents (by default
    [default_limit]) of the named collection that match the filter, in the
    store's order; it fails with [StorageUnavailable] without a live
    connection and with [ReadError] on an underlying failure. *)
Definition db_get_documents (collection_name : string) (filter_dict : filter)
    (limit : option nat) (w : world) : (Exception + list document) * world :=
  match db w with
  | None => (inl StorageUnavailable, w)
  | Some d =>
      match round_trip w with
      | (Some msg, w') => (inl (ReadError msg), w')
      | (None, w') =>
          let found :=
            List.filter (fun entry => matches_filter filter_dict entry.2)
              (map_to_list (collection_of d collection_name)) in
          (inr (shaped d <$> take (default default_limit limit) found), w')
      end
  end.

Definition database_adapter : adapter world :=
  Adapter db_create_document db_get_documents.

(** Modelled from the spec: the handle [db] that [main.py] imports from
    [database.py], as [test_database] sees it in a world (its name, and the
    names of its collections unless the round trip fails), and the world
    after that round trip. *)
Definition handle_of (w : world) : option handle * world :=
  match db w with
  | None => (None, w)
  | Some d =>
      let '(o, w') := round_trip w in
      (Some (Handle (Holds (VStr (db_name d)))
               match o with
               | Some msg => inl (PyException msg)
               | None => inr (map_to_list (collections d)).*1
               end),
       w')
  end.

End Store.

(** ** Observations used in the statements *)

(** The reading under which presence alone decides: a field constrains the
    query exactly when it is present in the preference. *)
Definition presence_decides (pref : QuizInput) (q : filter) : Prop :=
  (is_Some (q !! "nature_type")
   <-> is_Some (QuizInput.preferred_nature pref))
  /\ (is_Some (q !! "duration_days") <-> is_Some (QuizInput.duration pref))
  /\ (is_Some (q !! "price_usd") <-> is_Some (QuizInput.budget pref)).

(** The [QuizInput] with the fields of a [Preference]. *)
Definition same_fields (pref : Preference) : QuizInput :=
  {| QuizInput.energy := Preference.energy pref;
     QuizInput.preferred_nature := Preference.preferred_nature pref;
     QuizInput.budget := Preference.budget pref;
     QuizInput.duration := Preference.duration pref;
     QuizInput.goals := Preference.goals pref |}.

(** The storage calls and the final store of an endpoint: a rejected request
    makes no call and leaves the store as it was. *)
Definition reply_calls {S A} (ad : adapter S) (r : reply A) (s : S)
  : list call :=
  match r with
  | Rejected _ => []
  | Handled p => calls (run ad p s)
  end.

Definition reply_final {S A} (ad : adapter S) (r : reply A) (s : S) : S :=
  match r with
  | Rejected _ => s
  | Handled p => final (run ad p s)
  end.

(** The keys of the diagnostic object. *)
Definition diagnostic_fields : gset string :=
  {[ "backend"; "database"; "database_url"; "database_name";
     "connection_status"; "collections" ]}.

(** ** Requests served on the modelled store *)

(** The routes of the application. *)
Inductive request : Type :=
| GET_root
| GET_test
| POST_hosts (body : Host)
| GET_hosts
| POST_locations (body : Location)
| GET_locations
| POST_retreats (body : Retreat)
| GET_retreats (nature_type : option string)
| POST_messages (body : Message)
| GET_messages (topic : option string)
| POST_recommend (body : QuizInput)
| POST_quiz (body : Preference).

Inductive response : Type :=
| Json (body : document)
| JsonList (body : list document)
| JsonRecommendation (body : recommendation)
| HTTPError (e : Exception)
| ValidationFailed (errors : list field_error).

Definition respond {A} (wrap : A -> response) (r : reply A)
    (w : Store.world) : response * Store.world :=
  match r with
  | Rejected errors => (ValidationFailed errors, w)
  | Handled p =>
      let o := run Store.database_adapter p w in
      (match result o with
       | inl e => HTTPError e
       | inr a => wrap a
       end,
       final o)
  end.

(** One request served on the modelled store. *)
Definition serve (req : request) (w : Store.world)
  : response * Store.world :=
  match req with
  | GET_root => (Json read_root, w)
  | GET_test =>
      let '(h, w') := Store.handle_of w in
      (Json (test_database (Store.environ w) h), w')
  | POST_hosts body => respond Json (endpoint create_host body) w
  | GET_hosts => respond JsonList (Handled list_hosts) w
  | POST_locations body => respond Json (endpoint create_location body) w
  | GET_locations => respond JsonList (Handled list_locations) w
  | POST_retreats body => respond Json (endpoint create_retreat body) w
  | GET_retreats nature_type =>
      respond JsonList (Handled (list_retreats nature_type)) w
  | POST_messages body => respond Json (endpoint create_message body) w
  | GET_messages topic => respond JsonList (Handled (list_messages topic)) w
  | POST_recommend body =>
      respond JsonRecommendation (endpoint recommend body) w
  | POST_quiz body => respond JsonRecommendation (endpoint quiz body) w
  end.

Definition serve_all (reqs : list request) (w : Store.world) : Store.world :=
  foldl (fun w req => (serve req w).2) w reqs.

(** The document persisted under an identifier of a collection, if any. *)
Definition stored (w : Store.world) (collection_name _id : string)
  : option document :=
  d ← Store.db w; Store.collection_of d collection_name !! _id.

(** The collection and the document of a creating route. *)
Definition creates (req : request) : option (string * document) :=
  match req with
  | POST_hosts body => Some ("host", model_dump body)
  | POST_locations body => Some ("location", model_dump body)
  | POST_retreats body => Some ("retreat", model_dump body)
  | POST_messages body => Some ("message", model_dump body)
  | _ => None
  end.

(** The store after a request holds what it held before. *)
Definition unchanged (w w' : Store.world) : Prop :=
  forall collection_name _id,
    stored w' collection_name _id = stored w collection_name _id.

(** The store after a request holds what it held before and one new
    document. *)
Definition one_inserted (w w' : Store.world) (collection_name _id : string)
    (doc : document) : Prop :=
  stored w collection_name _id = None
  /\ stored w' collection_name _id = Some doc
  /\ forall c i, (c, i) ≠ (collection_name, _id) ->
                 stored w' c i = stored w c i.

Definition is_error (r : response) : Prop :=
  match r with
  | HTTPError _ | ValidationFailed _ => True
  | _ => False
  end.

(** Programs that only read: they return, raise, or find and go on reading
    whatever the store answers. *)
Inductive reads_only {A} : prog A -> Prop :=
| reads_return (a : A) : reads_only (Return a)
| reads_raise (e : Exception) : reads_only (Raise e)
| reads_find collection_name q limit k :
    (forall r, reads_only (k r)) ->
    reads_only (GetDocuments collection_name q limit k).

(** ** Sample inputs *)

(** A preference asking for zero days, and one with an empty nature. *)
Definition zero_days : QuizInput :=
  {| QuizInput.energy := None;
     QuizInput.preferred_nature := None;
     QuizInput.budget := None;
     QuizInput.duration := Some 0;
     QuizInput.goals := None |}.

Definition empty_nature : QuizInput :=
  {| QuizInput.energy := None;
     QuizInput.preferred_nature := Some "";
     QuizInput.budget := None;
     QuizInput.duration := None;
     QuizInput.goals := None |}.

(** The adapter of a store that is never available. *)
Definition unavailable : adapter unit :=
  Adapter (fun _ _ s => (inl (PyException "unavailable"), s))
          (fun _ _ _ s => (inl (PyException "unavailable"), s)).

(** The request body [{budget: 0}]. *)
Definition budget_zero : QuizInput :=
  {| QuizInput.energy := None;
     QuizInput.preferred_nature := None;
     QuizInput.budget := Some (S754_zero false);
     QuizInput.duration := None;
     QuizInput.goals := None |}.

Definition calm_forest (goals : option string) : QuizInput :=
  {| QuizInput.energy := Some "calm";
     QuizInput.preferred_nature := Some "forest";
     QuizInput.budget := Some (S754_zero false);
     QuizInput.duration := Some 7;
     QuizInput.goals := goals |}.

(** Sample retreat bodies: a ten-dollar weekend, and the same with the
    duration replaced. 10.0 is [5629499534213120 * 2^-49]. *)
Definition ten_dollars : spec_float :=
  S754_finite false 5629499534213120 (-49).

Definition weekend (duration_days : Z) (price_usd : spec_float) : Retreat :=
  {| Retreat.title := "Silent weekend";
     Retreat.description := None;
     Retreat.host_name := "Ana";
     Retreat.location_title := "Cedar Grove";
     Retreat.nature_type := "forest";
     Retreat.focus := ["silence"];
     Retreat.duration_days := duration_days;
     Retreat.price_usd := price_usd;
     Retreat.start_date := None;
     Retreat.image_url := None |}.

(** A store that holds one retreat, and a few requests served on it. *)
Definition sanctuary : Store.world :=
  Store.World ∅
    (Some (Store.Database "sanctuary" false
             {[ "retreat" := {[ "0" := model_dump (weekend 2 ten_dollars) ]} ]}))
    [None; Some "connection reset"].

Definition requests : list request :=
  [POST_retreats (weekend 3 ten_dollars);
   POST_retreats (weekend 5 ten_dollars);
   GET_retreats (Some "forest");
   POST_quiz {| Preference.energy := Some "calm";
                Preference.preferred_nature := Some "forest";
                Preference.budget := Some ten_dollars;
                Preference.duration := Some 2;
                Preference.goals := None |};
   POST_retreats (weekend 61 ten_dollars);
   GET_test].

(** ** Further observations on the handlers *)

(** A program that fails only with a server error: whatever the store
    does, an exception that leaves it is an [HTTPException] with status
    500. *)
Definition only_server_errors {A} (p : prog A) : Prop :=
  forall (S : Type) (ad : adapter S) (s : S) (e : Exception),
    result (run ad p s) = inl e ->
    exists detail, e = HTTPException 500 detail.

(** A handler that creates [data] in [collection_name]: on every store it
    makes that one call, leaves the store as the call left it, answers with
    the identifier the store returned, and turns a failure of the store
    into a server error carrying the whole message. *)
Definition creates_through {S} (ad : adapter S) (p : prog document)
    (collection_name : string) (data : document) : Prop :=
  forall s : S,
    let r := on_create ad collection_name data s in
    calls (run ad p s) = [CallCreate collection_name data]
    /\ final (run ad p s) = r.2
    /\ (forall _id, r.1 = inr _id -> result (run ad p s) = inr (created _id))
    /\ (forall e, r.1 = inl e ->
                  result (run ad p s) = inl (HTTPException 500 (str e))).

(** A handler that finds in [collection_name]: on every store it makes that
    one call, returns the documents the store returned, as they are, and
    turns a failure of the store into a server error carrying the whole
    message. *)
Definition finds_through {S} (ad : adapter S) (p : prog (list document))
    (collection_name : string) (q : filter) (limit : option nat) : Prop :=
  forall s : S,
    let r := on_find ad collection_name q limit s in
    calls (run ad p s) = [CallFind collection_name q limit]
    /\ final (run ad p s) = r.2
    /\ (forall docs, r.1 = inr docs -> result (run ad p s) = inr docs)
    /\ (forall e, r.1 = inl e ->
                  result (run ad p s) = inl (HTTPException 500 (str e))).

(** The moods that have a guidance text of their own. *)
Definition recognized (energy : option string) : bool :=
  energy_is energy "calm" || energy_is energy "transformative"
  || energy_is energy "adventurous" || energy_is energy "restorative".

(** The number of code points of a [str]: the bytes that start one. *)
Fixpoint code_points (s : string) : nat :=
  match s with
  | EmptyString => O
  | String c s' =>
      if is_continuation c then code_points s' else Datatypes.S (code_points s')
  end.

(** Whether reading the [name] attribute of the handle raises. *)
Definition name_fails (a : attribute) : bool :=
  match a with
  | Fails _ => true
  | _ => false
  end.

(** The documents of a collection in a world, by identifier. *)
Definition documents_in (w : Store.world) (collection_name : string)
  : gmap string document :=
  match Store.db w with
  | Some d => Store.collection_of d collection_name
  | None => ∅
  end.

(** Whether the next round trip to the store is due to fail. *)
Definition next_fails (w : Store.world) : bool :=
  match Store.outages w with
  | Some _ :: _ => true
  | _ => false
  end.


(** A preference for a calm forest stay of at most two days and ten
    dollars. *)
Definition forest_weekend : QuizInput :=
  {| QuizInput.energy := Some "calm";
     QuizInput.preferred_nature := Some "forest";
     QuizInput.budget := Some ten_dollars;
     QuizInput.duration := Some 2;
     QuizInput.goals := None |}.

(** * Properties *)

(** ** Python values *)

Example str_int_500 : str_int 500 = "500".
Proof. reflexivity. Qed.

Example slice_to_ascii : slice_to 3 "abcdef" = "abc".
Proof. reflexivity. Qed.

(** ** Properties of the recommendation engine *)

Section Recommend.

Context {S : Type} (ad : adapter S).

(** [recommend] makes one storage call: the find on the retreat collection
    with the dict it built, capped at 8. *)
Lemma recommend_calls (pref : QuizInput) (s : S) :
  calls (run ad (recommend pref) s)
  = [CallFind "retreat" (recommend_query pref) (Some 8%nat)].
Proof.
  unfold recommend, get_documents; cbn.
  destruct (on_find ad _ _ _ s) as [[e | docs] s']; reflexivity.
Qed.

(** What [recommend] returns: the documents the store found, with the
    guidance text, or a server error carrying the store's message. *)
Lemma recommend_result (pref : QuizInput) (s : S) :
  result (run ad (recommend pref) s)
  = match (on_find ad "retreat" (recommend_query pref) (Some 8%nat) s).1 with
    | inl e => inl (HTTPException 500 (str e))
    | inr docs =>
        inr (Recommendation docs (spirit_note (QuizInput.energy pref)))
    end.
Proof.
  unfold recommend, get_documents; cbn.
  destruct (on_find ad _ _ _ s) as [[e | docs] s']; reflexivity.
Qed.

Lemma recommend_final (pref : QuizInput) (s : S) :
  final (run ad (recommend pref) s)
  = (on_find ad "retreat" (recommend_query pref) (Some 8%nat) s).2.
Proof.
  unfold recommend, get_documents; cbn.
  destruct (on_find ad _ _ _ s) as [[e | docs] s']; reflexivity.
Qed.

End Recommend.

(** The three entries of the dict, one by one. *)
Lemma recommend_query_nature (pref : QuizInput) :
  recommend_query pref !! "nature_type"
  = if truthy_str (QuizInput.preferred_nature pref)
    then Some (Exact (dump_opt_str (QuizInput.preferred_nature pref)))
    else None.
Proof.
  unfold recommend_query.
  destruct (truthy_str _), (truthy_int _), (is_not_None _);
    by simplify_map_eq.
Qed.

Lemma recommend_query_duration (pref : QuizInput) :
  recommend_query pref !! "duration_days"
  = if truthy_int (QuizInput.duration pref)
    then Some (AtMost (dump_opt_int (QuizInput.duration pref)))
    else None.
Proof.
  unfold recommend_query.
  destruct (truthy_str _), (truthy_int _), (is_not_None _);
    by simplify_map_eq.
Qed.

Lemma recommend_query_price (pref : QuizInput) :
  recommend_query pref !! "price_usd"
  = if is_not_None (QuizInput.budget pref)
    then Some (AtMost (dump_opt_float (QuizInput.budget pref)))
    else None.
Proof.
  unfold recommend_query.
  destruct (truthy_str _), (truthy_int _), (is_not_None _);
    by simplify_map_eq.
Qed.

Lemma recommend_query_other (pref : QuizInput) (field : string) :
  field ≠ "nature_type" -> field ≠ "duration_days" -> field ≠ "price_usd" ->
  recommend_query pref !! field = None.
Proof.
  intros Hn Hd Hp. unfold recommend_query.
  destruct (truthy_str _), (truthy_int _), (is_not_None _);
    by simplify_map_eq.
Qed.

Lemma truthy_str_Some (o : option string) :
  truthy_str o = true <-> exists v, o = Some v /\ v ≠ "".
Proof.
  destruct o as [v |]; simpl.
  - rewrite negb_true_iff. split.
    + intros H. exists v. split; [done |]. intros ->. by rewrite String.eqb_refl in H.
    + intros (v' & [= <-] & Hne). by apply String.eqb_neq.
  - split; [done | by intros (v & ? & _)].
Qed.

Lemma truthy_int_Some (o : option Z) :
  truthy_int o = true <-> exists n, o = Some n /\ n ≠ 0.
Proof.
  destruct o as [n |]; simpl.
  - rewrite negb_true_iff, Z.eqb_neq. split.
    + intros H. by exists n.
    + by intros (n' & [= <-] & Hne).
  - split; [done | by intros (n & ? & _)].
Qed.

(** C1, as stated, fails: with [duration = 0] the duration is present, yet
    the query that [recommend] issues has no constraint on [duration_days]
    (the guard is the truthiness of the field, and zero is false). *)
Lemma recommend_presence_counterexample :
  calls (run unavailable (recommend zero_days) tt)
  = [CallFind "retreat" (recommend_query zero_days) (Some 8%nat)]
  /\ ~ presence_decides zero_days (recommend_query zero_days).
Proof.
  split; [reflexivity |].
  intros (_ & [_ Hd] & _).
  destruct Hd as [c Hc]; [by eexists |].
  rewrite recommend_query_duration in Hc. discriminate Hc.
Qed.

(** The same happens for an empty [preferred_nature]. *)
Lemma recommend_empty_nature_unconstrained :
  ~ presence_decides empty_nature (recommend_query empty_nature).
Proof.
  intros ([_ Hn] & _).
  destruct Hn as [c Hc]; [by eexists |].
  rewrite recommend_query_nature in Hc. discriminate Hc.
Qed.

(** C1, amended: for every preference, [recommend] issues one query, on the
    retreat collection and capped at 8 results, whose filter has an exact
    match on [nature_type] if and only if [preferred_nature] is present and
    not empty, an at-most constraint on [duration_days] if and only if
    [duration] is present and not zero, an at-most constraint on [price_usd]
    if and only if [budget] is present, and no other constraint. *)
Theorem recommend_issues_guarded_filter :
  forall (pref : QuizInput),
    (forall (S : Type) (ad : adapter S) (s : S),
        calls (run ad (recommend pref) s)
        = [CallFind "retreat" (recommend_query pref) (Some 8%nat)])
    /\ (forall c, recommend_query pref !! "nature_type" = Some c
                  <-> exists v, QuizInput.preferred_nature pref = Some v
                                /\ v ≠ "" /\ c = Exact (VStr v))
    /\ (forall c, recommend_query pref !! "duration_days" = Some c
                  <-> exists n, QuizInput.duration pref = Some n
                                /\ n ≠ 0 /\ c = AtMost (VInt n))
    /\ (forall c, recommend_query pref !! "price_usd" = Some c
                  <-> exists b, QuizInput.budget pref = Some b
                                /\ c = AtMost (VFloat b))
    /\ (forall field,
           is_Some (recommend_query pref !! field) ->
           field ∈ ["nature_type"; "duration_days"; "price_usd"]).
Proof.
  intros pref. split; [intros; apply recommend_calls |].
  split; [| split; [| split]].
  - intros c. rewrite recommend_query_nature.
    destruct (truthy_str _) eqn:Ht.
    + apply truthy_str_Some in Ht as (v & Hv & Hne). rewrite Hv; simpl.
      split; [intros [= <-]; by exists v |].
      by intros (v' & [= <-] & _ & ->).
    + split; [done |]. intros (v & Hv & Hne & _).
      assert (truthy_str (QuizInput.preferred_nature pref) = true) as Hc
        by (apply truthy_str_Some; eauto).
      congruence.
  - intros c. rewrite recommend_query_duration.
    destruct (truthy_int _) eqn:Ht.
    + apply truthy_int_Some in Ht as (n & Hn & Hne). rewrite Hn; simpl.
      split; [intros [= <-]; by exists n |].
      by intros (n' & [= <-] & _ & ->).
    + split; [done |]. intros (n & Hn & Hne & _).
      assert (truthy_int (QuizInput.duration pref) = true) as Hc
        by (apply truthy_int_Some; eauto).
      congruence.
  - intros c. rewrite recommend_query_price.
    destruct (QuizInput.budget pref) as [b |]; simpl.
    + split; [intros [= <-]; by exists b |].
      by intros (b' & [= <-] & ->).
    + split; [done | by intros (b & ? & _)].
  - intros field [c Hc].
    destruct (decide (field = "nature_type")) as [-> | Hn]; [set_solver |].
    destruct (decide (field = "duration_days")) as [-> | Hd]; [set_solver |].
    destruct (decide (field = "price_usd")) as [-> | Hp]; [set_solver |].
    by rewrite recommend_query_other in Hc.
Qed.

(** C2: with a budget of zero (of either sign), the query that [recommend]
    issues constrains [price_usd] to be at most that zero; the zero budget
    is not taken for an absent one. *)
Theorem recommend_zero_budget_constrains :
  forall (pref : QuizInput) (sign : bool),
    QuizInput.budget pref = Some (S754_zero sign) ->
    (forall (S : Type) (ad : adapter S) (s : S),
        calls (run ad (recommend pref) s)
        = [CallFind "retreat" (recommend_query pref) (Some 8%nat)])
    /\ recommend_query pref !! "price_usd"
       = Some (AtMost (VFloat (S754_zero sign))).
Proof.
  intros pref sign Hb. split; [intros; apply recommend_calls |].
  rewrite recommend_query_price, Hb. reflexivity.
Qed.

Lemma recommend_zero_budget_witness :
  recommend_query budget_zero
  = {[ "price_usd" := AtMost (VFloat (S754_zero false)) ]}
  /\ recommend_query budget_zero !! "price_usd"
     = Some (AtMost (VFloat (S754_zero false))).
Proof.
  split; [reflexivity |].
  apply (recommend_zero_budget_constrains budget_zero false).
  reflexivity.
Defined.

(** ** The quiz entry point *)

(** Building a [QuizInput] from the dump of a [Preference] never fails and
    copies the five fields. *)
Lemma QuizInput_init_model_dump (pref : Preference) :
  QuizInput_init (model_dump pref) = inr (same_fields pref).
Proof.
  destruct pref as [energy nature budget duration goals].
  unfold QuizInput_init, get_opt_str, get_opt_int, get_opt_float, same_fields.
  cbn [model_dump Preference_model Preference.energy
       Preference.preferred_nature Preference.budget Preference.duration
       Preference.goals].
  simplify_map_eq.
  by destruct energy, nature, budget, duration, goals.
Qed.

Section Quiz.

Context {S : Type} (ad : adapter S).

(** [quiz] is [recommend] under one more [except] clause. *)
Lemma quiz_unfold (pref : Preference) :
  quiz pref = try_except (recommend (same_fields pref)) server_error.
Proof. unfold quiz. by rewrite QuizInput_init_model_dump. Qed.

Lemma quiz_run (pref : Preference) (s : S) :
  run ad (quiz pref) s
  = let o := run ad (recommend (same_fields pref)) s in
    Outcome
      match result o with
      | inl e => inl (HTTPException 500 (str e))
      | inr r => inr r
      end
      (final o) (calls o).
Proof.
  rewrite quiz_unfold. unfold recommend, get_documents; cbn.
  destruct (on_find ad _ _ _ s) as [[e | docs] s']; reflexivity.
Qed.

(** When the store fails, both entry points answer with a server error, but
    not with the same detail: [quiz] wraps the error of [recommend] once
    more. *)
Lemma quiz_error_detail (pref : Preference) (s : S) (e : Exception) :
  (on_find ad "retreat" (recommend_query (same_fields pref)) (Some 8%nat) s).1
  = inl e ->
  result (run ad (recommend (same_fields pref)) s)
  = inl (HTTPException 500 (str e))
  /\ result (run ad (quiz pref) s)
     = inl (HTTPException 500 ("500: " ++ str e)).
Proof.
  intros He. rewrite quiz_run; cbn zeta.
  rewrite recommend_result, He. done.
Qed.

End Quiz.

(** C3: for every preference record, on every store, [quiz] returns a
    result exactly when [recommend] returns one on the preference with the
    same five fields, and it is the same result (same matches, same
    spirit_message); both issue the same calls and leave the same store. *)
Theorem quiz_returns_what_recommend_returns :
  forall (S : Type) (ad : adapter S) (s : S) (pref : Preference),
    (forall r : recommendation,
        result (run ad (quiz pref) s) = inr r
        <-> result (run ad (recommend (same_fields pref)) s) = inr r)
    /\ calls (run ad (quiz pref) s)
       = calls (run ad (recommend (same_fields pref)) s)
    /\ final (run ad (quiz pref) s)
       = final (run ad (recommend (same_fields pref)) s).
Proof.
  intros S ad s pref. rewrite quiz_run; cbn zeta; cbn [result calls final].
  split; [| done].
  intros r. destruct (result (run ad (recommend (same_fields pref)) s));
    split; congruence.
Qed.

(** ** The guidance text *)

(** C4: the spirit_message of every result of [recommend] is picked by
    exact match of [energy] against the four keys calm, transformative,
    adventurous and restorative; "calm" gives the fixed calm text, and every
    other value of [energy], also an absent one, gives the one fallback
    text. *)
Theorem spirit_message_by_exact_match :
  (forall (S : Type) (ad : adapter S) (s : S) (pref : QuizInput)
          (r : recommendation),
      result (run ad (recommend pref) s) = inr r ->
      spirit_message r = spirit_note (QuizInput.energy pref))
  /\ spirit_note (Some "calm")
     = "The waters are still today; gentle breath and soft horizons call you."
  /\ spirit_note (Some "transformative")
     = "Winds of change swirl around you; trust the metamorphosis."
  /\ spirit_note (Some "adventurous")
     = "Peaks and tides await; your courage is the compass."
  /\ spirit_note (Some "restorative")
     = "Let the earth hold you; sleep, nourish, and renew."
  /\ (forall energy : option string,
         energy ∉ [Some "calm"; Some "transformative"; Some "adventurous";
                   Some "restorative"] ->
         spirit_note energy
         = "Nature listens. Share more, and I’ll guide you further.")
  /\ spirit_note None
     = "Nature listens. Share more, and I’ll guide you further.".
Proof.
  split.
  { intros S ad s pref r. rewrite recommend_result.
    destruct (on_find ad _ _ _ s).1; [done |]. by intros [= <-]. }
  do 4 (split; [reflexivity |]).
  split; [| reflexivity].
  intros [e |] Hnot; [| reflexivity].
  unfold spirit_note, energy_is.
  repeat match goal with
         | |- context [String.eqb e ?k] =>
             destruct (String.eqb_spec e k) as [-> | _]; [set_solver |]
         end.
  reflexivity.
Qed.

(** ** The goals field *)

(** C5: two preferences that agree on energy, preferred_nature, budget and
    duration give the same program whatever their goals: on every store
    [recommend] issues the same query and returns the same result. *)
Theorem recommend_ignores_goals :
  forall (p1 p2 : QuizInput),
    QuizInput.energy p1 = QuizInput.energy p2 ->
    QuizInput.preferred_nature p1 = QuizInput.preferred_nature p2 ->
    QuizInput.budget p1 = QuizInput.budget p2 ->
    QuizInput.duration p1 = QuizInput.duration p2 ->
    recommend_query p1 = recommend_query p2
    /\ recommend p1 = recommend p2
    /\ forall (S : Type) (ad : adapter S) (s : S),
         run ad (recommend p1) s = run ad (recommend p2) s.
Proof.
  intros [e1 n1 b1 d1 g1] [e2 n2 b2 d2 g2]; cbn.
  intros -> -> -> ->. done.
Qed.

Lemma recommend_ignores_goals_witness :
  recommend (calm_forest (Some "release stress"))
  = recommend (calm_forest None).
Proof.
  apply (recommend_ignores_goals (calm_forest (Some "release stress"))
           (calm_forest None)); reflexivity.
Defined.

(** ** Creating a retreat *)

Lemma create_retreat_calls {S} (ad : adapter S) (retreat : Retreat) (s : S) :
  calls (run ad (create_retreat retreat) s)
  = [CallCreate "retreat" (model_dump retreat)].
Proof.
  unfold create_retreat, create_document; cbn.
  destruct (on_create ad _ _ s) as [[e | _id] s']; reflexivity.
Qed.

Lemma float_lt_0_not_ge_0 (x : spec_float) :
  float_lt_0 x = true -> float_ge_0 x = false.
Proof. by destruct x as [[] | [] | | [] m e]. Qed.

Lemma Retreat_field_errors_nil (r : Retreat) :
  Retreat_field_errors r = []
  <-> 1 <= Retreat.duration_days r <= 60
      /\ float_ge_0 (Retreat.price_usd r) = true.
Proof.
  unfold Retreat_field_errors.
  destruct (Z.leb_spec 1 (Retreat.duration_days r)),
    (Z.leb_spec (Retreat.duration_days r) 60),
    (float_ge_0 (Retreat.price_usd r)); cbn; split;
    try done; try (intros [? ?]; try done; lia).
Qed.

(** C6: a retreat body whose duration_days is below 1 or above 60, or whose
    price_usd is negative, is rejected by validation: the handler is not
    entered, no storage call is made and the store is left as it was. A body
    with duration_days in 1..60 and price_usd at least 0 passes validation,
    and the handler issues the create call for it on the retreat
    collection. *)
Theorem retreat_validated_before_storage :
  forall (body : Retreat),
    ((Retreat.duration_days body < 1 \/ 60 < Retreat.duration_days body
      \/ float_lt_0 (Retreat.price_usd body) = true) ->
     (exists errors, errors ≠ []
                     /\ endpoint create_retreat body = Rejected errors)
     /\ forall (S : Type) (ad : adapter S) (s : S),
          reply_calls ad (endpoint create_retreat body) s = []
          /\ reply_final ad (endpoint create_retreat body) s = s)
    /\ ((1 <= Retreat.duration_days body <= 60
         /\ float_ge_0 (Retreat.price_usd body) = true) ->
        endpoint create_retreat body = Handled (create_retreat body)
        /\ forall (S : Type) (ad : adapter S) (s : S),
             reply_calls ad (endpoint create_retreat body) s
             = [CallCreate "retreat" (model_dump body)]).
Proof.
  intros body. split.
  - intros Hbad.
    assert (Retreat_field_errors body ≠ []) as Hne.
    { rewrite Retreat_field_errors_nil. intros [Hd Hp].
      destruct Hbad as [? | [? | Hneg]]; [lia | lia |].
      apply float_lt_0_not_ge_0 in Hneg. congruence. }
    unfold endpoint; cbn [field_errors Retreat_model].
    destruct (Retreat_field_errors body) as [| err errs]; [done |].
    split; [by eexists | done].
  - intros Hok. apply Retreat_field_errors_nil in Hok.
    unfold endpoint; cbn [field_errors Retreat_model]. rewrite Hok.
    split; [done |]. intros S ad s. apply create_retreat_calls.
Qed.

Lemma retreat_validated_before_storage_witness :
  endpoint create_retreat (weekend 0 ten_dollars)
  = Rejected [FieldError "duration_days" (greater_than_equal 1)]
  /\ endpoint create_retreat (weekend 61 ten_dollars)
     = Rejected [FieldError "duration_days" (less_than_equal 60)]
  /\ reply_calls unavailable (endpoint create_retreat (weekend 61 ten_dollars))
       tt = []
  /\ endpoint create_retreat (weekend 2 ten_dollars)
     = Handled (create_retreat (weekend 2 ten_dollars)).
Proof.
  split; [reflexivity |]. split; [reflexivity |]. split.
  - apply (proj1 (retreat_validated_before_storage (weekend 61 ten_dollars))).
    right; left; reflexivity.
  - apply (proj2 (retreat_validated_before_storage (weekend 2 ten_dollars))).
    split; [split; discriminate | reflexivity].
Defined.

(** ** Listing with a query parameter *)

Section Lists.

Context {S : Type} (ad : adapter S).

Lemma list_retreats_run (nature_type : option string) (s : S) :
  run ad (list_retreats nature_type) s
  = let q : filter :=
      if truthy_str nature_type
      then {[ "nature_type" := Exact (dump_opt_str nature_type) ]}
      else ∅ in
    let r := on_find ad "retreat" q None s in
    Outcome
      match r.1 with
      | inl e => inl (HTTPException 500 (str e))
      | inr docs => inr docs
      end
      r.2 [CallFind "retreat" q None].
Proof.
  unfold list_retreats, get_documents; cbn.
  destruct (on_find ad _ _ _ s) as [[e | docs] s']; reflexivity.
Qed.

Lemma list_messages_run (topic : option string) (s : S) :
  run ad (list_messages topic) s
  = let q : filter :=
      if truthy_str topic
      then {[ "topic" := Exact (dump_opt_str topic) ]}
      else ∅ in
    let r := on_find ad "message" q None s in
    Outcome
      match r.1 with
      | inl e => inl (HTTPException 500 (str e))
      | inr docs => inr docs
      end
      r.2 [CallFind "message" q None].
Proof.
  unfold list_messages, get_documents; cbn.
  destruct (on_find ad _ _ _ s) as [[e | docs] s']; reflexivity.
Qed.

End Lists.

Lemma truthy_str_nonempty (v : string) : v ≠ "" -> truthy_str (Some v) = true.
Proof. intros Hv. apply truthy_str_Some. eauto. Qed.

(** What the modelled store returns for an exact match on a string field. *)
Lemma value_eqb_VStr (x : value) (v : string) :
  Store.value_eqb x (VStr v) = true -> x = VStr v.
Proof.
  destruct x as [| s | n | f | l]; cbn; try done.
  - by intros ->%String.eqb_eq.
  - by destruct f.
Qed.

Lemma matches_exact_string (field v : string) (doc : document) :
  Store.matches_filter {[ field := Exact (VStr v) ]} doc = true ->
  doc !! field = Some (VStr v).
Proof.
  unfold Store.matches_filter. rewrite map_to_list_singleton. cbn.
  rewrite andb_true_r. unfold Store.satisfies.
  destruct (doc !! field) as [x |]; [| done].
  by intros ->%value_eqb_VStr.
Qed.

Lemma db_get_documents_exact_string
    (collection_name field v : string) (limit : option nat)
    (w w' : Store.world) (docs : list document) :
  field ≠ "id" ->
  Store.db_get_documents collection_name {[ field := Exact (VStr v) ]}
    limit w = (inr docs, w') ->
  forall doc, doc ∈ docs -> doc !! field = Some (VStr v).
Proof.
  intros Hfield. unfold Store.db_get_documents.
  destruct (Store.db w) as [d |]; [| done].
  destruct (Store.round_trip w) as [[msg |] w'']; [done |].
  intros [= <- <-] doc [entry [-> Hin]]%list_elem_of_fmap.
  apply elem_of_take in Hin as (i & Hin & _).
  apply list_elem_of_lookup_2, list_elem_of_In, List.filter_In in Hin
    as [_ Hm].
  apply matches_exact_string in Hm.
  unfold Store.shaped. destruct (Store.string_ids d); [| done].
  by rewrite lookup_insert_ne.
Qed.

(** C7: for a non-empty [nature_type] parameter, [list_retreats] queries the
    store with the equality filter on nature_type, so every document it
    returns has exactly that string as its nature_type; without the
    parameter the filter is empty. *)
Theorem list_retreats_filters_by_equality :
  forall (v : string),
    v ≠ "" ->
    (forall (S : Type) (ad : adapter S) (s : S),
        calls (run ad (list_retreats (Some v)) s)
        = [CallFind "retreat" {[ "nature_type" := Exact (VStr v) ]} None])
    /\ (forall (w : Store.world) (docs : list document),
           result (run Store.database_adapter (list_retreats (Some v)) w)
           = inr docs ->
           forall doc, doc ∈ docs -> doc !! "nature_type" = Some (VStr v))
    /\ (forall (S : Type) (ad : adapter S) (s : S),
           calls (run ad (list_retreats None) s)
           = [CallFind "retreat" ∅ None]).
Proof.
  intros v Hv. split; [| split].
  - intros S ad s. rewrite list_retreats_run; cbn zeta.
    by rewrite (truthy_str_nonempty v Hv).
  - intros w docs. rewrite list_retreats_run; cbn zeta.
    rewrite (truthy_str_nonempty v Hv); cbn [result dump_opt_str on_find
      Store.database_adapter].
    destruct (Store.db_get_documents _ _ _ w) as [[e | ds] w'] eqn:Hfind;
      [done |].
    intros [= <-]. by eapply db_get_documents_exact_string.
  - intros S ad s. by rewrite list_retreats_run.
Qed.

Lemma list_retreats_filters_by_equality_witness :
  "forest" ≠ ""
  /\ calls (run unavailable (list_retreats (Some "forest")) tt)
     = [CallFind "retreat" {[ "nature_type" := Exact (VStr "forest") ]} None].
Proof.
  split; [discriminate |].
  apply (list_retreats_filters_by_equality "forest"). discriminate.
Defined.

(** C10: for the retreat and the message list operations, an empty query
    parameter is the same program as an absent one: on every store the one
    call made carries the empty filter (not an equality with the empty
    string), and the result is the store's answer to the unfiltered find. *)
Theorem empty_parameter_is_absent :
  list_retreats (Some "") = list_retreats None
  /\ list_messages (Some "") = list_messages None
  /\ forall (S : Type) (ad : adapter S) (s : S),
       (calls (run ad (list_retreats (Some "")) s)
        = [CallFind "retreat" ∅ None]
        /\ forall docs,
             (on_find ad "retreat" ∅ None s).1 = inr docs ->
             result (run ad (list_retreats (Some "")) s) = inr docs)
       /\ (calls (run ad (list_messages (Some "")) s)
           = [CallFind "message" ∅ None]
           /\ forall docs,
                (on_find ad "message" ∅ None s).1 = inr docs ->
                result (run ad (list_messages (Some "")) s) = inr docs).
Proof.
  split; [reflexivity |]. split; [reflexivity |].
  intros S ad s. rewrite list_retreats_run, list_messages_run; cbn.
  split; (split; [done |]); by intros docs ->.
Qed.

(** ** The diagnostic endpoint *)

Lemma insert_field_dom (k : string) (v : value) (response : document) :
  k ∈ diagnostic_fields ->
  dom response = diagnostic_fields ->
  dom (<[k := v]> response) = diagnostic_fields.
Proof.
  intros Hk Hdom. rewrite dom_insert_L, Hdom.
  apply subseteq_union_1_L. by apply singleton_subseteq_l.
Qed.

Ltac field_dom :=
  repeat (apply insert_field_dom;
          [unfold diagnostic_fields; set_solver |]).

Lemma test_database_try_dom environ db (response : document) :
  dom response = diagnostic_fields ->
  dom (test_database_try environ db response) = diagnostic_fields.
Proof.
  intros Hdom. unfold test_database_try.
  destruct db as [[[| v | e] [e' | collections]] |]; cbn;
    by field_dom.
Qed.

Lemma test_database_try_collections environ db (response : document) :
  response !! "collections" = Some (VList []) ->
  exists l, test_database_try environ db response !! "collections"
            = Some (VList l)
            /\ (length l <= 10)%nat.
Proof.
  intros Hc. unfold test_database_try.
  destruct db as [[[| v | e] [e' | collections]] |]; cbn;
    simplify_map_eq;
    first [ by (exists []; split; [| cbn; lia])
          | exists (take 10 collections); split; [done |];
            rewrite length_take; lia ].
Qed.

Lemma test_database_try_string environ db (response : document)
    (field : string) :
  field = "database" \/ field = "connection_status" ->
  (exists s, response !! field = Some (VStr s)) ->
  exists s, test_database_try environ db response !! field = Some (VStr s).
Proof.
  intros Hfield [s Hs]. unfold test_database_try.
  destruct db as [[[| v | e] [e' | collections]] |]; cbn;
    destruct Hfield as [-> | ->]; simplify_map_eq; eauto.
Qed.

(** C8: [test_database] is total: whatever the environment and the handle
    are (no handle, a handle whose name is missing or fails, a handle whose
    listing fails), it returns a dict with exactly the fields backend,
    database, database_url, database_name, connection_status and
    collections, where backend, database and connection_status are strings,
    the two settings are the set/not-set marks, and collections lists at
    most 10 names. *)
Theorem test_database_always_answers :
  forall (environ : gmap string string) (db : option handle),
    let response := test_database environ db in
    dom response = diagnostic_fields
    /\ response !! "backend" = Some (VStr "✅ Running")
    /\ (exists s, response !! "database" = Some (VStr s))
    /\ response !! "database_url"
       = Some (set_or_not environ "DATABASE_URL")
    /\ response !! "database_name"
       = Some (set_or_not environ "DATABASE_NAME")
    /\ (exists s, response !! "connection_status" = Some (VStr s))
    /\ (exists l, response !! "collections" = Some (VList l)
                  /\ (length l <= 10)%nat).
Proof.
  intros environ db response. subst response. unfold test_database.
  set (initial := <["backend" := _]> _).
  assert (dom initial = diagnostic_fields) as Hdom.
  { subst initial. rewrite !dom_insert_L, dom_empty_L.
    unfold diagnostic_fields. set_solver. }
  split; [| split; [| split; [| split; [| split; [| split]]]]].
  - field_dom. by apply test_database_try_dom.
  - simplify_map_eq. unfold test_database_try.
    destruct db as [[[| v | e] [e' | collections]] |]; cbn;
      by simplify_map_eq.
  - simplify_map_eq.
    apply test_database_try_string; [by left |]. by eexists.
  - by simplify_map_eq.
  - by simplify_map_eq.
  - simplify_map_eq.
    apply test_database_try_string; [by right |]. by eexists.
  - simplify_map_eq. by apply test_database_try_collections.
Qed.

(** ** Requests and the persisted documents *)

Lemma round_trip_db (w : Store.world) :
  Store.db (Store.round_trip w).2 = Store.db w.
Proof. unfold Store.round_trip. by destruct (Store.outages w). Qed.

Lemma unchanged_same_db (w w' : Store.world) :
  Store.db w' = Store.db w -> unchanged w w'.
Proof. intros Hdb c i. unfold stored. by rewrite Hdb. Qed.

(** The modelled find reads only. *)
Lemma db_get_documents_unchanged collection_name q limit (w : Store.world) :
  unchanged w (Store.db_get_documents collection_name q limit w).2.
Proof.
  apply unchanged_same_db. unfold Store.db_get_documents.
  destruct (Store.db w) as [d |] eqn:Hdb; [| done].
  pose proof (round_trip_db w) as Hrt.
  destruct (Store.round_trip w) as [[msg |] w']; cbn in *; congruence.
Qed.

(** The modelled create fails and changes nothing, or returns a fresh
    identifier under which the document is now stored. *)
Lemma db_create_document_effect collection_name data (w : Store.world) :
  match Store.db_create_document collection_name data w with
  | (inl _, w') => unchanged w w'
  | (inr _id, w') => one_inserted w w' collection_name _id data
  end.
Proof.
  unfold Store.db_create_document.
  destruct (Store.db w) as [d |] eqn:Hdb; [| done].
  pose proof (round_trip_db w) as Hrt.
  destruct (Store.round_trip w) as [[msg |] w']; cbn in Hrt.
  { apply unchanged_same_db. congruence. }
  set (c := Store.collection_of d collection_name).
  assert (c !! fresh (dom c) = None) as Hfresh
    by apply not_elem_of_dom, is_fresh.
  unfold one_inserted, stored. rewrite Hdb; cbn.
  split; [done |]. split.
  - unfold Store.collection_of at 1; cbn.
    rewrite lookup_insert_eq; cbn. by rewrite lookup_insert_eq.
  - intros c' i Hne. unfold Store.collection_of at 1; cbn.
    destruct (decide (c' = collection_name)) as [-> | Hc].
    + rewrite lookup_insert_eq; cbn. rewrite lookup_insert_ne; [done |].
      congruence.
    + by rewrite lookup_insert_ne.
Qed.

Lemma handle_of_unchanged (w : Store.world) :
  unchanged w (Store.handle_of w).2.
Proof.
  apply unchanged_same_db. unfold Store.handle_of.
  destruct (Store.db w) as [d |] eqn:Hdb; [| done].
  pose proof (round_trip_db w) as Hrt.
  destruct (Store.round_trip w) as [o w']; cbn in *. congruence.
Qed.

Lemma reads_only_unchanged {A} (p : prog A) :
  reads_only p ->
  forall w : Store.world, unchanged w (final (run Store.database_adapter p w)).
Proof.
  induction 1 as [a | e | c q limit k Hk IH]; intros w; cbn; try done.
  pose proof (db_get_documents_unchanged c q limit w) as Hun.
  destruct (Store.db_get_documents c q limit w) as [r w']; cbn in *.
  intros c' i. by rewrite IH.
Qed.

Ltac reads :=
  cbn; repeat first [ constructor | intros [? | ?]; cbn ].

Lemma list_hosts_reads : reads_only list_hosts.
Proof. unfold list_hosts, get_documents. reads. Qed.

Lemma list_locations_reads : reads_only list_locations.
Proof. unfold list_locations, get_documents. reads. Qed.

Lemma list_retreats_reads nature_type : reads_only (list_retreats nature_type).
Proof. unfold list_retreats, get_documents. reads. Qed.

Lemma list_messages_reads topic : reads_only (list_messages topic).
Proof. unfold list_messages, get_documents. reads. Qed.

Lemma recommend_reads pref : reads_only (recommend pref).
Proof. unfold recommend, get_documents. reads. Qed.

Lemma quiz_reads pref : reads_only (quiz pref).
Proof.
  rewrite quiz_unfold. unfold recommend, get_documents. reads.
Qed.

(** Every creating handler is one create, answered with the new identifier
    or with a server error. *)
Lemma create_handler_effect collection_name data (w : Store.world) :
  let r :=
    respond Json
      (Handled (try_except
                  (create_document collection_name data
                   ≫= fun _id => mret (created _id))
                  server_error)) w in
  (exists _id, r.1 = Json (created _id)
               /\ one_inserted w r.2 collection_name _id data)
  \/ (is_error r.1 /\ unchanged w r.2).
Proof.
  pose proof (db_create_document_effect collection_name data w) as Heff.
  unfold respond, create_document; cbn.
  destruct (Store.db_create_document _ _ w) as [[e | _id] w']; cbn.
  - by right.
  - left. by exists _id.
Qed.

Lemma unchanged_refl (w : Store.world) : unchanged w w.
Proof. done. Qed.

(** What one request does to the persisted documents. *)
Lemma serve_effect (req : request) (w : Store.world) :
  match creates req with
  | None => unchanged w (serve req w).2
  | Some (collection_name, doc) =>
      (exists _id, (serve req w).1 = Json (created _id)
                   /\ one_inserted w (serve req w).2 collection_name _id doc)
      \/ (is_error (serve req w).1 /\ unchanged w (serve req w).2)
  end.
Proof.
  destruct req as [| | body | | body | | body | nature_type | body | topic
                   | body | body]; cbn [creates serve].
  - apply unchanged_refl.
  - pose proof (handle_of_unchanged w) as Hun.
    by destruct (Store.handle_of w) as [h w'].
  - apply create_handler_effect.
  - apply (reads_only_unchanged _ list_hosts_reads).
  - apply create_handler_effect.
  - apply (reads_only_unchanged _ list_locations_reads).
  - unfold endpoint; cbn [field_errors Retreat_model].
    destruct (Retreat_field_errors body) as [| err errs].
    + apply create_handler_effect.
    + right. split; [done | apply unchanged_refl].
  - apply (reads_only_unchanged _ (list_retreats_reads nature_type)).
  - apply create_handler_effect.
  - apply (reads_only_unchanged _ (list_messages_reads topic)).
  - apply (reads_only_unchanged _ (recommend_reads body)).
  - apply (reads_only_unchanged _ (quiz_reads body)).
Qed.

Lemma serve_keeps (req : request) (w : Store.world) collection_name _id doc :
  stored w collection_name _id = Some doc ->
  stored (serve req w).2 collection_name _id = Some doc.
Proof.
  intros Hs. pose proof (serve_effect req w) as Heff.
  destruct (creates req) as [[c data] |].
  - destruct Heff as [(i & _ & Hnew & _ & Hrest) | [_ Hun]].
    + rewrite Hrest; [done |]. intros [= -> ->]. congruence.
    + by rewrite Hun.
  - by rewrite Heff.
Qed.

(** C9: every operation reads the store or inserts one new document. A
    route that does not create leaves every persisted document as it was; a
    creating route answers with a new identifier, under which exactly its
    document is added while all others stay, or with an error and no change.
    Hence a document, once persisted, is the same after any sequence of
    requests. *)
Theorem persisted_documents_never_change :
  (forall (req : request) (w : Store.world),
      match creates req with
      | None => unchanged w (serve req w).2
      | Some (collection_name, doc) =>
          (exists _id,
              (serve req w).1 = Json (created _id)
              /\ one_inserted w (serve req w).2 collection_name _id doc)
          \/ (is_error (serve req w).1 /\ unchanged w (serve req w).2)
      end)
  /\ (forall (reqs : list request) (w : Store.world)
             (collection_name _id : string) (doc : document),
         stored w collection_name _id = Some doc ->
         stored (serve_all reqs w) collection_name _id = Some doc).
Proof.
  split; [apply serve_effect |].
  intros reqs. induction reqs as [| req reqs IH]; intros w c i doc Hs.
  - done.
  - cbn. apply IH. by apply serve_keeps.
Qed.

Lemma persisted_documents_never_change_witness :
  stored sanctuary "retreat" "0" = Some (model_dump (weekend 2 ten_dollars))
  /\ stored (serve_all requests sanctuary) "retreat" "0"
     = Some (model_dump (weekend 2 ten_dollars)).
Proof.
  split; [vm_compute; reflexivity |].
  apply (proj2 persisted_documents_never_change).
  vm_compute; reflexivity.
Defined.

(** ** The model at work *)

(** The same requests, evaluated: the first create succeeds, the second
    meets the connection reset, the list and the quiz find what is there. *)
Example serve_requests_stored :
  (fun w => (stored w "retreat" "0", stored w "retreat" "1",
             stored w "retreat" "2"))
    (serve_all requests sanctuary)
  = (Some (model_dump (weekend 2 ten_dollars)),
     Some (model_dump (weekend 3 ten_dollars)),
     None).
Proof. vm_compute. reflexivity. Qed.

Example serve_quiz_finds_weekend :
  (serve (POST_quiz {| Preference.energy := Some "calm";
                       Preference.preferred_nature := Some "forest";
                       Preference.budget := Some ten_dollars;
                       Preference.duration := Some 2;
                       Preference.goals := Some "rest" |})
     sanctuary).1
  = JsonRecommendation
      (Recommendation [model_dump (weekend 2 ten_dollars)]
         "The waters are still today; gentle breath and soft horizons call you.").
Proof. vm_compute. reflexivity. Qed.

Example list_retreats_is_case_sensitive :
  (serve (GET_retreats (Some "Forest")) sanctuary).1 = JsonList []
  /\ (serve (GET_retreats (Some "forest")) sanctuary).1
     = JsonList [model_dump (weekend 2 ten_dollars)]
  /\ (serve (GET_retreats (Some "for")) sanctuary).1 = JsonList [].
Proof. vm_compute. done. Qed.

Example test_database_without_handle :
  test_database ∅ None !! "database"
  = Some (VStr "⚠️  Available but not initialized").
Proof. vm_compute. reflexivity. Qed.

Example test_database_failing_listing :
  test_database {[ "DATABASE_URL" := "mongodb://db" ]}
    (Some (Handle (Holds (VStr "sanctuary")) (inl (PyException "timed out"))))
  !! "database"
  = Some (VStr "⚠️  Connected but Error: timed out").
Proof. vm_compute. reflexivity. Qed.


(** * Further properties of the handlers *)

(** ** Errors of the storage handlers *)

Lemma try_except_server_error_run {A S} (ad : adapter S) (body : prog A)
    (s : S) :
  run ad (try_except body server_error) s
  = let o := run ad body s in
    Outcome
      match result o with
      | inl e => inl (HTTPException 500 (str e))
      | inr a => inr a
      end
      (final o) (calls o).
Proof.
  revert s. induction body as [a | e | c d k IH | c q l k IH]; intros s; cbn;
    try reflexivity.
  - destruct (on_create ad c d s) as [r s']. by rewrite IH.
  - destruct (on_find ad c q l s) as [r s']. by rewrite IH.
Qed.

Lemma try_except_only_server_errors {A} (body : prog A) :
  only_server_errors (try_except body server_error).
Proof.
  intros S ad s e. rewrite try_except_server_error_run; cbn.
  destruct (result (run ad body s)); [| done].
  intros [= <-]. by eexists.
Qed.

(** X3: no handler that talks to the store lets another exception than a
    server error out: whatever the store returns or raises, a failure of
    any of the ten handlers is an [HTTPException] with status 500. *)
Theorem handlers_fail_only_with_server_errors :
  (forall host, only_server_errors (create_host host))
  /\ only_server_errors list_hosts
  /\ (forall location, only_server_errors (create_location location))
  /\ only_server_errors list_locations
  /\ (forall retreat, only_server_errors (create_retreat retreat))
  /\ (forall nature_type, only_server_errors (list_retreats nature_type))
  /\ (forall message, only_server_errors (create_message message))
  /\ (forall topic, only_server_errors (list_messages topic))
  /\ (forall pref, only_server_errors (recommend pref))
  /\ (forall pref, only_server_errors (quiz pref)).
Proof.
  repeat split; intros; apply try_except_only_server_errors.
Qed.

Lemma create_shape {S} (ad : adapter S) collection_name data :
  creates_through ad
    (try_except
       (create_document collection_name data
        ≫= fun _id => mret (created _id))
       server_error)
    collection_name data.
Proof.
  intros s; cbn zeta. unfold create_document; cbn.
  destruct (on_create ad collection_name data s) as [[e | _id] s']; cbn.
  - repeat split; [done |]. by intros e' [= <-].
  - repeat split; [| done]. by intros i [= <-].
Qed.

(** X1: each of the four create handlers makes exactly one storage call,
    the create of the dumped body in its own collection (host, location,
    retreat, message); it answers with the identifier the store returned
    and status created, and a failure of the store becomes a server error
    whose detail is the whole message of the failure. *)
Theorem create_handlers_create_once :
  forall (S : Type) (ad : adapter S),
    (forall host : Host,
        creates_through ad (create_host host) "host" (model_dump host))
    /\ (forall location : Location,
           creates_through ad (create_location location) "location"
             (model_dump location))
    /\ (forall retreat : Retreat,
           creates_through ad (create_retreat retreat) "retreat"
             (model_dump retreat))
    /\ (forall message : Message,
           creates_through ad (create_message message) "message"
             (model_dump message)).
Proof.
  intros S ad. split; [| split; [| split]]; intros; apply create_shape.
Qed.

Lemma find_shape {S} (ad : adapter S) collection_name q limit :
  finds_through ad
    (try_except (get_documents collection_name q limit) server_error)
    collection_name q limit.
Proof.
  intros s; cbn zeta. unfold get_documents; cbn.
  destruct (on_find ad collection_name q limit s) as [[e | docs] s']; cbn.
  - repeat split; [done |]. by intros e' [= <-].
  - repeat split; [| done]. by intros ds [= <-].
Qed.

(** X2: [list_hosts] and [list_locations] make exactly one storage call,
    the find on their collection with the empty filter and the default
    limit; they return the store's documents as they are, and a failure of
    the store becomes a server error whose detail is the whole message. *)
Theorem list_hosts_and_locations_find_all :
  forall (S : Type) (ad : adapter S),
    finds_through ad list_hosts "host" ∅ None
    /\ finds_through ad list_locations "location" ∅ None.
Proof. intros S ad. split; apply find_shape. Qed.

(** X6: for a non-empty [topic] parameter, [list_messages] makes exactly
    one storage call, the find on the message collection with the equality
    filter on topic and the default limit; it returns the store's
    documents as they are, and a failure of the store becomes a server
    error. *)
Theorem list_messages_filters_by_topic :
  forall (S : Type) (ad : adapter S) (v : string),
    v ≠ "" ->
    finds_through ad (list_messages (Some v)) "message"
      {[ "topic" := Exact (VStr v) ]} None.
Proof.
  intros S ad v Hv. unfold list_messages.
  rewrite (truthy_str_nonempty v Hv). apply find_shape.
Qed.

Lemma list_messages_filters_by_topic_witness :
  "rideshare" ≠ ""
  /\ calls (run unavailable (list_messages (Some "rideshare")) tt)
     = [CallFind "message" {[ "topic" := Exact (VStr "rideshare") ]} None].
Proof.
  split; [discriminate |].
  apply (list_messages_filters_by_topic unit unavailable "rideshare").
  discriminate.
Defined.

(** ** The quiz entry point, further *)

(** X4: when [recommend] fails, [quiz] on the preference with the same
    fields fails too, and its detail is the detail of [recommend] behind
    the prefix "500: ": the error is wrapped once more on its way out. *)
Theorem quiz_wraps_the_error_again :
  forall (S : Type) (ad : adapter S) (s : S) (pref : Preference)
         (detail : string),
    result (run ad (recommend (same_fields pref)) s)
    = inl (HTTPException 500 detail) ->
    result (run ad (quiz pref) s)
    = inl (HTTPException 500 ("500: " ++ detail)).
Proof.
  intros S ad s pref detail Hrec.
  rewrite quiz_run; cbn zeta; cbn [result]. by rewrite Hrec.
Qed.

Lemma quiz_wraps_the_error_again_witness :
  result (run unavailable (quiz {| Preference.energy := Some "calm";
                                   Preference.preferred_nature := None;
                                   Preference.budget := None;
                                   Preference.duration := None;
                                   Preference.goals := None |}) tt)
  = inl (HTTPException 500 "500: unavailable").
Proof.
  apply (quiz_wraps_the_error_again unit unavailable tt _ "unavailable").
  reflexivity.
Defined.

(** X5: dumping a [QuizInput] and building a [QuizInput] from the dump
    gives the input back; the dump of a [Preference] is the dump of the
    [QuizInput] with the same fields, so [quiz] loses no field on the
    way to [recommend]. *)
Theorem QuizInput_dump_round_trip :
  (forall input : QuizInput, QuizInput_init (model_dump input) = inr input)
  /\ (forall pref : Preference,
         model_dump pref = model_dump (same_fields pref)).
Proof.
  split.
  - intros [energy nature budget duration goals].
    unfold QuizInput_init, get_opt_str, get_opt_int, get_opt_float.
    cbn [model_dump QuizInput_model QuizInput.energy
         QuizInput.preferred_nature QuizInput.budget QuizInput.duration
         QuizInput.goals].
    simplify_map_eq.
    by destruct energy, nature, budget, duration, goals.
  - by intros [energy nature budget duration goals].
Qed.

(** ** The query of [recommend], further *)

(** X8: the filter of [recommend] is empty, so that the query is the
    unfiltered find, exactly when the preferred nature is absent or empty,
    the duration is absent or zero, and the budget is absent. *)
Theorem recommend_query_empty_iff :
  forall pref : QuizInput,
    recommend_query pref = ∅
    <-> (QuizInput.preferred_nature pref = None
         \/ QuizInput.preferred_nature pref = Some "")
        /\ (QuizInput.duration pref = None
            \/ QuizInput.duration pref = Some 0)
        /\ QuizInput.budget pref = None.
Proof.
  intros [energy nature budget duration goals]; cbn. split.
  - intros Hq.
    pose proof (recommend_query_nature
                  (QuizInput.Build_QuizInput energy nature budget duration
                     goals)) as Hn.
    pose proof (recommend_query_duration
                  (QuizInput.Build_QuizInput energy nature budget duration
                     goals)) as Hd.
    pose proof (recommend_query_price
                  (QuizInput.Build_QuizInput energy nature budget duration
                     goals)) as Hp.
    rewrite Hq, lookup_empty in Hn, Hd, Hp. cbn in Hn, Hd, Hp.
    split; [| split].
    + destruct nature as [v |]; [| by left]. right.
      cbn in Hn. destruct (String.eqb_spec v ""); [by subst | done].
    + destruct duration as [n |]; [| by left]. right.
      cbn in Hd. destruct (Z.eqb_spec n 0); [by subst | done].
    + by destruct budget.
  - intros ([-> | ->] & [-> | ->] & ->); reflexivity.
Qed.

(** X9: the query of [recommend] depends on preferred_nature, duration and
    budget only, and the guidance text on energy only: two preferences
    that agree on the first three issue the same filter whatever their
    energy, and two that agree on energy get the same text whatever the
    store returned to each. *)
Theorem recommend_separates_query_and_text :
  forall (p1 p2 : QuizInput),
    (QuizInput.preferred_nature p1 = QuizInput.preferred_nature p2 ->
     QuizInput.duration p1 = QuizInput.duration p2 ->
     QuizInput.budget p1 = QuizInput.budget p2 ->
     recommend_query p1 = recommend_query p2)
    /\ (QuizInput.energy p1 = QuizInput.energy p2 ->
        forall (S1 S2 : Type) (ad1 : adapter S1) (ad2 : adapter S2)
               (s1 : S1) (s2 : S2) (r1 r2 : recommendation),
          result (run ad1 (recommend p1) s1) = inr r1 ->
          result (run ad2 (recommend p2) s2) = inr r2 ->
          spirit_message r1 = spirit_message r2).
Proof.
  intros p1 p2. split.
  - destruct p1 as [e1 n1 b1 d1 g1], p2 as [e2 n2 b2 d2 g2]; cbn.
    by intros -> -> ->.
  - intros He S1 S2 ad1 ad2 s1 s2 r1 r2. rewrite !recommend_result, He.
    destruct (on_find ad1 _ _ _ s1).1, (on_find ad2 _ _ _ s2).1; try done.
    by intros [= <-] [= <-].
Qed.

(** ** The guidance text, further *)

Lemma recognized_cases (energy : option string) :
  recognized energy = true ->
  energy = Some "calm" \/ energy = Some "transformative"
  \/ energy = Some "adventurous" \/ energy = Some "restorative".
Proof.
  destruct energy as [e |]; [| done]. unfold recognized, energy_is.
  rewrite !orb_true_iff, !String.eqb_eq.
  intros [[[-> | ->] | ->] | ->]; auto.
Qed.

(** X10: the guidance texts tell the moods apart: a preference with a
    recognized mood gets a text that no other value of energy gets, and
    the fallback text is given exactly to the values that are not
    recognized. *)
Theorem spirit_note_tells_moods_apart :
  (forall e1 e2 : option string,
      recognized e1 = true -> spirit_note e1 = spirit_note e2 -> e1 = e2)
  /\ (forall e : option string,
         spirit_note e = fallback_note <-> recognized e = false).
Proof.
  assert (forall e : option string,
             recognized e = false -> spirit_note e = fallback_note) as Hfall.
  { intros e. unfold recognized, spirit_note.
    rewrite !orb_false_iff. by intros [[[-> ->] ->] ->]. }
  split.
  - intros e1 e2 H1 Heq.
    destruct (recognized e2) eqn:H2.
    + apply recognized_cases in H1, H2.
      destruct H1 as [-> | [-> | [-> | ->]]],
               H2 as [-> | [-> | [-> | ->]]];
        first [ reflexivity | by vm_compute in Heq ].
    + rewrite (Hfall e2 H2) in Heq. apply recognized_cases in H1.
      destruct H1 as [-> | [-> | [-> | ->]]]; by vm_compute in Heq.
  - intros e. split; [| apply Hfall].
    intros Hnote. destruct (recognized e) eqn:He; [| done].
    apply recognized_cases in He.
    destruct He as [-> | [-> | [-> | ->]]]; by vm_compute in Hnote.
Qed.

(** ** The diagnostic endpoint, further *)

(** X11: the four answers of [test_database]. Without a handle the database
    is reported as available but not initialized, not connected, with no
    collections. With a handle whose listing works it is connected and
    working, with the first ten collection names in the store's order. When
    the listing raises, it is connected, with no collections and the first
    80 code points of the message. When reading the name raises, the
    listing is not reported at all: not connected, no collections, and the
    first 100 code points of the message. *)
Theorem test_database_answers :
  forall (environ : gmap string string),
    (test_database environ None !! "database"
     = Some (VStr "⚠️  Available but not initialized")
     /\ test_database environ None !! "connection_status"
        = Some (VStr "Not Connected")
     /\ test_database environ None !! "collections" = Some (VList []))
    /\ (forall (a : attribute) (names : list string),
           name_fails a = false ->
           let response := test_database environ
                             (Some (Handle a (inr names))) in
           response !! "database" = Some (VStr "✅ Connected & Working")
           /\ response !! "connection_status" = Some (VStr "Connected")
           /\ response !! "collections" = Some (VList (take 10 names)))
    /\ (forall (a : attribute) (e : Exception),
           name_fails a = false ->
           let response := test_database environ (Some (Handle a (inl e))) in
           response !! "database"
           = Some (VStr ("⚠️  Connected but Error: " ++ slice_to 80 (str e)))
           /\ response !! "connection_status" = Some (VStr "Connected")
           /\ response !! "collections" = Some (VList []))
    /\ (forall (e : Exception) (listing : Exception + list string),
           let response := test_database environ
                             (Some (Handle (Fails e) listing)) in
           response !! "database"
           = Some (VStr ("❌ Error: " ++ slice_to 100 (str e)))
           /\ response !! "connection_status" = Some (VStr "Not Connected")
           /\ response !! "collections" = Some (VList [])).
Proof.
  intros environ. unfold test_database, test_database_try.
  split; [by simplify_map_eq |].
  split; [| split].
  - intros [| v | e] names Ha; [| | done]; cbn; by simplify_map_eq.
  - intros [| v | e'] e Ha; [| | done]; cbn; by simplify_map_eq.
  - intros e listing; cbn. by simplify_map_eq.
Qed.

(** X12: the name of the database is never reported: the answer of
    [test_database] is the same whatever value the [name] attribute of the
    handle holds, and the same when the handle has no such attribute; the
    database_name field only tells whether DATABASE_NAME is set. *)
Theorem test_database_hides_the_name :
  forall (environ : gmap string string) (v : value)
         (listing : Exception + list string),
    test_database environ (Some (Handle (Holds v) listing))
    = test_database environ (Some (Handle Missing listing))
    /\ test_database environ (Some (Handle (Holds v) listing))
         !! "database_name"
       = Some (set_or_not environ "DATABASE_NAME").
Proof.
  intros environ v listing. split.
  - unfold test_database, test_database_try; cbn.
    destruct listing as [e | names]; apply map_eq; intros k;
      repeat (rewrite lookup_insert; case_decide; [done |]); done.
  - unfold test_database. by simplify_map_eq.
Qed.

Lemma slice_to_prefix (n : nat) (s : string) :
  exists rest, s = slice_to n s ++ rest.
Proof.
  revert n. induction s as [| c s IH]; intros n; cbn.
  - by exists "".
  - destruct (is_continuation c).
    + destruct (IH n) as [rest Hrest]. exists rest.
      transitivity (String c (slice_to n s ++ rest));
        [by f_equal | reflexivity].
    + destruct n as [| n]; [by eexists |].
      destruct (IH n) as [rest Hrest]. exists rest.
      transitivity (String c (slice_to n s ++ rest));
        [by f_equal | reflexivity].
Qed.

Lemma slice_to_code_points (n : nat) (s : string) :
  (code_points (slice_to n s) <= n)%nat.
Proof.
  revert n. induction s as [| c s IH]; intros n; cbn; [lia |].
  destruct (is_continuation c) eqn:Hc; cbn.
  - rewrite Hc. apply IH.
  - destruct n as [| n]; cbn; [lia |]. rewrite Hc. specialize (IH n). lia.
Qed.

Lemma slice_to_short (n : nat) (s : string) :
  (code_points s <= n)%nat -> slice_to n s = s.
Proof.
  revert n. induction s as [| c s IH]; intros n; cbn; [done |].
  destruct (is_continuation c).
  - intros Hn. by rewrite IH.
  - destruct n as [| n]; [lia |]. intros Hn. rewrite IH; [done | lia].
Qed.

(** X13: the error text in the diagnostic is bounded. When the listing
    raises, the database field is the fixed prefix followed by a prefix of
    the message of at most 80 code points, and by the whole message when it
    has at most 80; when reading the name raises, the same holds with 100. *)
Theorem test_database_truncates_the_error :
  forall (environ : gmap string string) (e : Exception),
    (forall a : attribute,
        name_fails a = false ->
        exists shown rest,
          test_database environ (Some (Handle a (inl e))) !! "database"
          = Some (VStr ("⚠️  Connected but Error: " ++ shown))
          /\ str e = shown ++ rest
          /\ (code_points shown <= 80)%nat
          /\ ((code_points (str e) <= 80)%nat -> shown = str e))
    /\ (forall listing : Exception + list string,
           exists shown rest,
             test_database environ (Some (Handle (Fails e) listing))
               !! "database"
             = Some (VStr ("❌ Error: " ++ shown))
             /\ str e = shown ++ rest
             /\ (code_points shown <= 100)%nat
             /\ ((code_points (str e) <= 100)%nat -> shown = str e)).
Proof.
  intros environ e. split.
  - intros a Ha. destruct (slice_to_prefix 80 (str e)) as [rest Hrest].
    exists (slice_to 80 (str e)), rest.
    split; [| split; [done | split;
      [apply slice_to_code_points | apply slice_to_short]]].
    unfold test_database, test_database_try.
    destruct a as [| v | e']; [| | done]; cbn; by simplify_map_eq.
  - intros listing. destruct (slice_to_prefix 100 (str e)) as [rest Hrest].
    exists (slice_to 100 (str e)), rest.
    split; [| split; [done | split;
      [apply slice_to_code_points | apply slice_to_short]]].
    unfold test_database, test_database_try; cbn. by simplify_map_eq.
Qed.

(** ** Validation of a retreat, further *)

Lemma elem_of_unless {A} (b : bool) (x y : A) :
  y ∈ (if b then [] else [x]) <-> b = false /\ y = x.
Proof.
  destruct b; rewrite ?elem_of_nil, ?list_elem_of_singleton;
    intuition congruence.
Qed.

(** X14: validation of a retreat body reports every violated bound and
    nothing else: the lower bound of duration_days when it is below 1, the
    upper bound when it is above 60, the bound of price_usd when the price
    is not at least 0 (which includes a price that is not a number); at
    most two errors are reported, since the two bounds of duration_days
    exclude each other. *)
Theorem retreat_validation_reports_each_violation :
  forall body : Retreat,
    let errors := field_errors body in
    (FieldError "duration_days" (greater_than_equal 1) ∈ errors
     <-> Retreat.duration_days body < 1)
    /\ (FieldError "duration_days" (less_than_equal 60) ∈ errors
        <-> 60 < Retreat.duration_days body)
    /\ (FieldError "price_usd" (greater_than_equal 0) ∈ errors
        <-> float_ge_0 (Retreat.price_usd body) = false)
    /\ (Retreat.price_usd body = S754_nan ->
        FieldError "price_usd" (greater_than_equal 0) ∈ errors)
    /\ (forall err, err ∈ errors ->
          err = FieldError "duration_days" (greater_than_equal 1)
          \/ err = FieldError "duration_days" (less_than_equal 60)
          \/ err = FieldError "price_usd" (greater_than_equal 0))
    /\ (length errors <= 2)%nat.
Proof.
  intros body errors. subst errors.
  cbn [field_errors Retreat_model]. unfold Retreat_field_errors.
  split; [| split; [| split; [| split; [| split]]]].
  - rewrite !elem_of_app, !elem_of_unless, !Z.leb_gt.
    split; [| eauto].
    intros [[H _] | [[_ H] | [_ H]]]; [done | discriminate H..].
  - rewrite !elem_of_app, !elem_of_unless, !Z.leb_gt.
    split; [| eauto].
    intros [[_ H] | [[H _] | [_ H]]]; [discriminate H | done | discriminate H].
  - rewrite !elem_of_app, !elem_of_unless.
    split; [| eauto].
    intros [[_ H] | [[_ H] | [H _]]]; [discriminate H.. | done].
  - intros Hnan. rewrite !elem_of_app, !elem_of_unless, Hnan.
    right; right. by split.
  - intros err. rewrite !elem_of_app, !elem_of_unless. tauto.
  - destruct (Z.leb_spec 1 (Retreat.duration_days body)),
      (Z.leb_spec (Retreat.duration_days body) 60),
      (float_ge_0 (Retreat.price_usd body)); cbn; lia.
Qed.

(** ** The handlers on the modelled store *)

(** What the modelled find returns: at most [limit] documents, each the
    shaped form of a stored document that matches the filter. *)
Lemma db_get_documents_sound collection_name q limit
    (w w' : Store.world) (docs : list document) :
  Store.db_get_documents collection_name q limit w = (inr docs, w') ->
  (length docs <= default Store.default_limit limit)%nat
  /\ forall doc, doc ∈ docs ->
       exists d _id body,
         Store.db w = Some d
         /\ documents_in w collection_name !! _id = Some body
         /\ Store.matches_filter q body = true
         /\ doc = Store.shaped d (_id, body).
Proof.
  unfold Store.db_get_documents, documents_in.
  destruct (Store.db w) as [d |]; [| done].
  destruct (Store.round_trip w) as [[msg |] w'']; [done |].
  intros [= <- <-]. split.
  - rewrite length_fmap, length_take. lia.
  - intros doc [[_id body] [-> Hin]]%list_elem_of_fmap.
    apply elem_of_take in Hin as (i & Hin & _).
    apply list_elem_of_lookup_2, list_elem_of_In, List.filter_In in Hin
      as [Hin Hm].
    apply list_elem_of_In, elem_of_map_to_list in Hin.
    by exists d, _id, body.
Qed.

Lemma matches_filter_lookup (q : filter) (doc : document) field c :
  Store.matches_filter q doc = true ->
  q !! field = Some c ->
  Store.satisfies doc field c = true.
Proof.
  unfold Store.matches_filter. rewrite List.forallb_forall.
  intros Hall Hq. apply (Hall (field, c)).
  by apply list_elem_of_In, elem_of_map_to_list.
Qed.

Lemma shaped_lookup (d : Store.database) (entry : string * document) field :
  field ≠ "id" -> Store.shaped d entry !! field = entry.2 !! field.
Proof.
  intros Hf. unfold Store.shaped.
  destruct (Store.string_ids d); [| done]. by rewrite lookup_insert_ne.
Qed.



Lemma recommend_query_entries (pref : QuizInput) :
  (forall v, QuizInput.preferred_nature pref = Some v -> v ≠ "" ->
             recommend_query pref !! "nature_type" = Some (Exact (VStr v)))
  /\ (forall n, QuizInput.duration pref = Some n -> n ≠ 0 ->
                recommend_query pref !! "duration_days"
                = Some (AtMost (VInt n)))
  /\ (forall b, QuizInput.budget pref = Some b ->
                recommend_query pref !! "price_usd"
                = Some (AtMost (VFloat b))).
Proof.
  split; [| split].
  - intros v Hv Hne. rewrite recommend_query_nature, Hv.
    by rewrite (truthy_str_nonempty v Hne).
  - intros n Hn Hne. rewrite recommend_query_duration, Hn; cbn.
    by destruct (Z.eqb_spec n 0).
  - intros b Hb. by rewrite recommend_query_price, Hb.
Qed.

(** X15: on the store as modelled from the specification, [recommend]
    returns at most 8 matches, and each one meets every constraint of the
    preference: its nature_type is the preferred nature when that is not
    empty, its duration_days is at most the duration when that is not zero,
    and its price_usd is at most the budget when there is one. *)
Theorem recommend_matches_meet_the_preference :
  forall (pref : QuizInput) (w : Store.world) (r : recommendation),
    result (run Store.database_adapter (recommend pref) w) = inr r ->
    (length (matches r) <= 8)%nat
    /\ forall doc, doc ∈ matches r ->
         (forall v, QuizInput.preferred_nature pref = Some v -> v ≠ "" ->
                    doc !! "nature_type" = Some (VStr v))
         /\ (forall n, QuizInput.duration pref = Some n -> n ≠ 0 ->
                       exists x, doc !! "duration_days" = Some x
                                 /\ Store.value_leb x (VInt n) = true)
         /\ (forall b, QuizInput.budget pref = Some b ->
                       exists x, doc !! "price_usd" = Some x
                                 /\ Store.value_leb x (VFloat b) = true).
Proof.
  intros pref w r. rewrite recommend_result.
  cbn [on_find Store.database_adapter].
  destruct (Store.db_get_documents _ _ _ w) as [[e | docs] w'] eqn:Hfind;
    [done |].
  intros [= <-]; cbn [matches].
  apply db_get_documents_sound in Hfind as [Hlen Hdocs].
  split; [done |].
  intros doc (d & _id & body & _ & _ & Hm & ->)%Hdocs.
  pose proof (recommend_query_entries pref) as (Hn & Hd & Hb).
  split; [| split].
  - intros v Hv Hne.
    pose proof (matches_filter_lookup _ _ _ _ Hm (Hn v Hv Hne)) as Hs.
    rewrite shaped_lookup by done. cbn. unfold Store.satisfies in Hs.
    destruct (body !! "nature_type") as [x |]; [| done].
    by apply value_eqb_VStr in Hs as ->.
  - intros n Hv Hne.
    pose proof (matches_filter_lookup _ _ _ _ Hm (Hd n Hv Hne)) as Hs.
    rewrite shaped_lookup by done. cbn. unfold Store.satisfies in Hs.
    destruct (body !! "duration_days") as [x |]; [| done]. by exists x.
  - intros b Hv.
    pose proof (matches_filter_lookup _ _ _ _ Hm (Hb b Hv)) as Hs.
    rewrite shaped_lookup by done. cbn. unfold Store.satisfies in Hs.
    destruct (body !! "price_usd") as [x |]; [| done]. by exists x.
Qed.

Lemma recommend_matches_meet_the_preference_witness :
  exists r,
    result (run Store.database_adapter (recommend forest_weekend) sanctuary)
    = inr r
    /\ length (matches r) = 1%nat
    /\ (length (matches r) <= 8)%nat.
Proof.
  eexists. split; [vm_compute; reflexivity |]. split; [reflexivity |].
  apply (recommend_matches_meet_the_preference forest_weekend sanctuary).
  vm_compute; reflexivity.
Defined.

Lemma created_injective (i j : string) : created i = created j -> i = j.
Proof.
  intros Heq. assert (created i !! "id" = created j !! "id") as Hid
    by by rewrite Heq.
  unfold created in Hid. rewrite !lookup_insert_eq in Hid. congruence.
Qed.

Lemma filter_all {A} (f : A -> bool) (l : list A) :
  (forall x, f x = true) -> List.filter f l = l.
Proof.
  intros Hf. induction l as [| x l IH]; cbn; [done |].
  by rewrite Hf, IH.
Qed.

(** The modelled find with the empty filter returns every document of the
    collection, when there are no more than the limit and the round trip
    works. *)
Lemma db_get_documents_all collection_name limit (w : Store.world)
    (d : Store.database) :
  Store.db w = Some d ->
  next_fails w = false ->
  (size (documents_in w collection_name)
   <= default Store.default_limit limit)%nat ->
  exists docs,
    (Store.db_get_documents collection_name ∅ limit w).1 = inr docs
    /\ forall _id body,
         documents_in w collection_name !! _id = Some body ->
         Store.shaped d (_id, body) ∈ docs.
Proof.
  unfold Store.db_get_documents, documents_in, next_fails, Store.round_trip.
  intros -> Hnext Hsize.
  assert (forall entry : string * document,
             Store.matches_filter ∅ entry.2 = true) as Hall.
  { intros entry. unfold Store.matches_filter.
    by rewrite map_to_list_empty. }
  destruct (Store.outages w) as [| [msg |] rest]; [| done |]; cbn;
    (eexists; split; [reflexivity |]);
    intros _id body Hbody;
    rewrite (filter_all _ _ Hall), take_ge
      by (by rewrite length_map_to_list);
    apply (list_elem_of_fmap_2 (Store.shaped d) _ (_id, body));
    by apply elem_of_map_to_list.
Qed.

(** X16: a created retreat can be read back, on the store as modelled from
    the specification. When the create endpoint answered with an
    identifier, the body is stored under it; and when the next round trip
    works and the collection holds no more than 100 retreats, the
    unfiltered list returns a document with every field of the body. *)
Theorem created_retreat_is_listed :
  forall (body : Retreat) (w w' : Store.world) (_id : string),
    serve (POST_retreats body) w = (Json (created _id), w') ->
    stored w' "retreat" _id = Some (model_dump body)
    /\ (next_fails w' = false ->
        (size (documents_in w' "retreat") <= 100)%nat ->
        exists docs doc,
          (serve (GET_retreats None) w').1 = JsonList docs
          /\ doc ∈ docs
          /\ forall field, field ≠ "id" ->
                           doc !! field = model_dump body !! field).
Proof.
  intros body w w' _id Hserve.
  pose proof (serve_effect (POST_retreats body) w) as Heff.
  rewrite Hserve in Heff; cbn in Heff.
  destruct Heff as [(i & Hresp & _ & Hnew & _) | [[] _]].
  assert (Some (created _id) = Some (created i)) as Hid
    by exact (f_equal (fun r => match r with
                                | Json b => Some b
                                | _ => None
                                end) Hresp).
  apply (inj Some), created_injective in Hid as <-.
  split; [done |].
  intros Hnext Hsize. unfold stored in Hnew.
  destruct (Store.db w') as [d' |] eqn:Hdb; [| done]. cbn in Hnew.
  destruct (db_get_documents_all "retreat" None w' d' Hdb Hnext Hsize)
    as (docs & Hfind & Hdocs).
  exists docs, (Store.shaped d' (_id, model_dump body)).
  split; [| split].
  - cbn [serve]. unfold respond. rewrite list_retreats_run; cbn.
    cbn in Hfind. by rewrite Hfind.
  - apply Hdocs. unfold documents_in. by rewrite Hdb.
  - intros field Hfield. by rewrite shaped_lookup.
Qed.

Lemma created_retreat_is_listed_witness :
  stored (serve (POST_retreats (weekend 3 ten_dollars)) sanctuary).2
    "retreat" "1"
  = Some (model_dump (weekend 3 ten_dollars)).
Proof.
  apply (created_retreat_is_listed (weekend 3 ten_dollars) sanctuary
           (serve (POST_retreats (weekend 3 ten_dollars)) sanctuary).2 "1").
  vm_compute; reflexivity.
Defined.

(** ** The result of [recommend], further *)

(** X17: [recommend] hands on what the store found: when the find returns
    documents, the matches of the result are those documents, in the same
    order and unchanged, and the store is left as the find left it; when
    the find raises, [recommend] fails with a server error whose detail is
    the whole message of the failure. *)
Theorem recommend_hands_on_the_documents :
  forall (S : Type) (ad : adapter S) (s : S) (pref : QuizInput),
    let r := on_find ad "retreat" (recommend_query pref) (Some 8%nat) s in
    final (run ad (recommend pref) s) = r.2
    /\ (forall docs,
           r.1 = inr docs ->
           exists answer,
             result (run ad (recommend pref) s) = inr answer
             /\ matches answer = docs)
    /\ (forall e,
           r.1 = inl e ->
           result (run ad (recommend pref) s)
           = inl (HTTPException 500 (str e))).
Proof.
  intros S ad s pref r. subst r.
  rewrite recommend_result, recommend_final.
  split; [done |]. split.
  - intros docs ->. by eexists.
  - by intros e ->.
Qed.
